(** * PortScanner: a shallow embedding of [PortScanner.py]

    The program pings each host of a list, resolves its name and, when
    the host answers, scans a TCP port range with a pool of worker
    threads that share a queue of ports and a queue of results.

    Everything the program asks of the operating system (the ping
    sub-process, the resolver, [connect_ex], the thread scheduler, the
    output file) is an operation of a [System]: a transition on an
    abstract [World].  The Python code is embedded over an arbitrary
    [System], so every theorem holds for every network, every resolver
    and every interleaving of the worker threads. *)

From Stdlib Require Import ZArith Lia Ascii.
From stdpp Require Import base tactics option relations strings numbers pretty
  list_numbers list.

Local Open Scope string_scope.
Local Open Scope list_scope.

(** ** Exceptions *)

(** The exception classes the calls of the program can raise.  All of
    them derive from [Exception]. *)
Inductive exn_class : Type :=
| SocketHerror        (* socket.herror *)
| SocketGaierror      (* socket.gaierror *)
| SocketTimeout       (* socket.timeout / TimeoutError *)
| OSErrorOther        (* any other OSError *)
| FileNotFoundError
| PermissionError
| ValueError
| UnicodeError        (* a subclass of ValueError *)
| TypeError
| EOFError
| OtherException.

Record exn : Type := Exn { exn_cls : exn_class; exn_msg : string }.

(** [isinstance(e, OSError)]; [IOError] is an alias of [OSError]. *)
Definition is_OSError (c : exn_class) : bool :=
  match c with
  | SocketHerror | SocketGaierror | SocketTimeout | OSErrorOther
  | FileNotFoundError | PermissionError => true
  | _ => false
  end.

(** The class tuple of [except (socket.herror, socket.gaierror)]. *)
Definition is_herror_or_gaierror (c : exn_class) : bool :=
  match c with
  | SocketHerror | SocketGaierror => true
  | _ => false
  end.

(** What a call into the system gives back: a value or an exception. *)
Inductive result (A : Type) : Type :=
| Ok (a : A)
| Exc (x : exn).
Arguments Ok {A} a.
Arguments Exc {A} x.

Definition is_Ok {A} (r : result A) : bool :=
  match r with Ok _ => true | Exc _ => false end.

(** ** The report *)

(** The values stored in a per-host dictionary. *)
Inductive field_value : Type :=
| FStr (s : string)
| FStrs (l : list string)
| FInts (l : list Z).

(** A Python [dict] with string keys: insertion ordered, one entry per key. *)
Definition dict (V : Type) : Type := list (string * V).

(** [d[k] = v]: overwrite in place when the key is there, append otherwise. *)
Fixpoint dict_set {V} (k : string) (v : V) (d : dict V) : dict V :=
  match d with
  | [] => [(k, v)]
  | (k', v') :: d' =>
      if String.eqb k' k then (k', v) :: d' else (k', v') :: dict_set k v d'
  end.

Fixpoint dict_get {V} (k : string) (d : dict V) : option V :=
  match d with
  | [] => None
  | (k', v') :: d' => if String.eqb k' k then Some v' else dict_get k d'
  end.

Definition host_record : Type := dict field_value.
Definition report : Type := dict host_record.

(** ** The system *)

Record System : Type := {
  World : Type;
  (** [platform.system()] *)
  platform_system : World -> string;
  (** [subprocess.run(argv, stdout=DEVNULL, stderr=DEVNULL).returncode] *)
  subprocess_run : list string -> World -> result Z * World;
  (** [socket.gethostbyaddr(host)]: (hostname, aliaslist, ipaddrlist) *)
  gethostbyaddr :
    string -> World -> result (string * list string * list string) * World;
  (** [sock.connect_ex((host, port))] on a fresh socket with a 0.5 s timeout *)
  connect_ex : string -> Z -> World -> result Z * World;
  (** the scheduler: which of the runnable threads moves next *)
  os_schedule : World -> nat * World;
  (** [open(filename, 'w')] followed by [json.dump(results, outfile, indent=4)] *)
  json_dump_file : string -> report -> World -> result unit * World;
}.

(** ** What an observer of a run sees *)

Inductive event : Type :=
| EvPrint (msg : string)
| EvPing (argv : list string) (r : result Z)
| EvResolve (host : string) (r : result (string * list string * list string))
| EvPortScan (host : string) (start_port end_port num_threads : Z)
| EvProbe (host : string) (port : Z) (r : result Z)
| EvDump (filename : string) (results : report) (r : result unit).

(** ** Sockets *)

Record socket : Type := {
  sock_timeout_ms : option Z;
  sock_connected : bool;
  sock_closed : bool;
}.

(** [socket.socket(socket.AF_INET, socket.SOCK_STREAM)]; creating the
    socket is taken to succeed. *)
Definition socket_socket : socket :=
  {| sock_timeout_ms := None; sock_connected := false; sock_closed := false |}.

(** [sock.settimeout(seconds)], the time in milliseconds. *)
Definition settimeout (ms : Z) (s : socket) : socket :=
  {| sock_timeout_ms := Some ms;
     sock_connected := sock_connected s;
     sock_closed := sock_closed s |}.

Definition mark_connected (s : socket) : socket :=
  {| sock_timeout_ms := sock_timeout_ms s;
     sock_connected := true;
     sock_closed := sock_closed s |}.

(** [sock.__exit__]: leaving the [with] block closes the socket, whether
    the block ended normally or by an exception. *)
Definition socket_exit (s : socket) : socket :=
  {| sock_timeout_ms := sock_timeout_ms s;
     sock_connected := false;
     sock_closed := true |}.

(** ** Threads of the pool *)

(** Where a worker thread stands in [worker]: one state before each
    operation on the shared queues, on the network or on the task
    counter.  The operations of [queue.Queue] are atomic. *)
Inductive wstate : Type :=
| WCheck                 (* at [while not queue.empty()] *)
| WGet                   (* at [port = queue.get()] *)
| WProbe (port : Z)      (* in [scan_port], at [sock.connect_ex] *)
| WPut (port : Z)        (* in [scan_port], at [output_queue.put(port)] *)
| WTaskDone              (* at [queue.task_done()] *)
| WExit                  (* the loop condition was false: the thread ended *)
| WCrashed (x : exn).    (* an exception ended the thread *)

(** Where the calling thread stands in [port_scanner]. *)
Inductive mstate : Type :=
| MSpawn (k : nat)               (* in [for _ in range(num_threads)], k to go *)
| MJoin                          (* at [port_queue.join()] *)
| MDrain (open_ports : list Z)   (* in [while not output_queue.empty()] *)
| MReturned (open_ports : list Z).

Inductive tid : Type :=
| Main
| Worker (i : nat).

Section Program.

Variable sys : System.

(** ** scan_port *)

Record probe_outcome : Type := {
  po_raised : option exn;
  po_output_queue : list Z;
  po_socket : socket;
  po_world : World sys;
}.

Definition scan_port (host : string) (port : Z) (output_queue : list Z)
    (w : World sys) : probe_outcome :=
  let sock := socket_socket in
  let sock := settimeout 500 sock in
  let '(r, w') := connect_ex sys host port w in
  match r with
  | Ok rc =>
      if (rc =? 0)%Z then
        {| po_raised := None;
           po_output_queue := output_queue ++ [port];
           po_socket := socket_exit (mark_connected sock);
           po_world := w' |}
      else
        {| po_raised := None;
           po_output_queue := output_queue;
           po_socket := socket_exit sock;
           po_world := w' |}
  | Exc x =>
      {| po_raised := Some x;
         po_output_queue := output_queue;
         po_socket := socket_exit sock;
         po_world := w' |}
  end.

(** ** The pool of [port_scanner] *)

Record pool : Type := {
  port_queue : list Z;             (* [port_queue], FIFO *)
  unfinished_tasks : nat;          (* [port_queue.unfinished_tasks] *)
  output_queue : list Z;           (* [output_queue], FIFO *)
  threads : list wstate;           (* [threads], in start order *)
  main : mstate;
  probes : list (Z * result Z);    (* every [connect_ex] made, with its answer *)
  world : World sys;
}.

Definition set_world (w : World sys) (st : pool) : pool :=
  {| port_queue := port_queue st; unfinished_tasks := unfinished_tasks st;
     output_queue := output_queue st; threads := threads st;
     main := main st; probes := probes st; world := w |}.

Definition set_main (m : mstate) (st : pool) : pool :=
  {| port_queue := port_queue st; unfinished_tasks := unfinished_tasks st;
     output_queue := output_queue st; threads := threads st;
     main := m; probes := probes st; world := world st |}.

Definition set_thread (i : nat) (ws : wstate) (st : pool) : pool :=
  {| port_queue := port_queue st; unfinished_tasks := unfinished_tasks st;
     output_queue := output_queue st; threads := <[i := ws]> (threads st);
     main := main st; probes := probes st; world := world st |}.

(** [range(start_port, end_port + 1)] *)
Definition py_range (start_port end_port : Z) : list Z :=
  seqZ start_port (end_port + 1 - start_port).

(** One step of the calling thread. *)
Definition step_main (st : pool) : option pool :=
  match main st with
  | MSpawn (S k) =>
      Some {| port_queue := port_queue st; unfinished_tasks := unfinished_tasks st;
              output_queue := output_queue st; threads := threads st ++ [WCheck];
              main := MSpawn k; probes := probes st; world := world st |}
  | MSpawn 0 => Some (set_main MJoin st)
  | MJoin =>
      match unfinished_tasks st with
      | 0 => Some (set_main (MDrain []) st)
      | S _ => None
      end
  | MDrain open_ports =>
      match output_queue st with
      | [] => Some (set_main (MReturned open_ports) st)
      | p :: q =>
          Some {| port_queue := port_queue st; unfinished_tasks := unfinished_tasks st;
                  output_queue := q; threads := threads st;
                  main := MDrain (open_ports ++ [p]);
                  probes := probes st; world := world st |}
      end
  | MReturned _ => None
  end.

(** One step of worker [i] scanning [host]. *)
Definition step_worker (host : string) (i : nat) (st : pool) : option pool :=
  match threads st !! i with
  | None => None
  | Some WCheck =>
      match port_queue st with
      | [] => Some (set_thread i WExit st)
      | _ :: _ => Some (set_thread i WGet st)
      end
  | Some WGet =>
      match port_queue st with
      | [] => None
      | p :: q =>
          Some {| port_queue := q; unfinished_tasks := unfinished_tasks st;
                  output_queue := output_queue st;
                  threads := <[i := WProbe p]> (threads st);
                  main := main st; probes := probes st; world := world st |}
      end
  | Some (WProbe p) =>
      let '(r, w') := connect_ex sys host p (world st) in
      let next :=
        match r with
        | Ok rc => if (rc =? 0)%Z then WPut p else WTaskDone
        | Exc x => WCrashed x
        end in
      Some {| port_queue := port_queue st; unfinished_tasks := unfinished_tasks st;
              output_queue := output_queue st;
              threads := <[i := next]> (threads st);
              main := main st; probes := probes st ++ [(p, r)]; world := w' |}
  | Some (WPut p) =>
      Some {| port_queue := port_queue st; unfinished_tasks := unfinished_tasks st;
              output_queue := output_queue st ++ [p];
              threads := <[i := WTaskDone]> (threads st);
              main := main st; probes := probes st; world := world st |}
  | Some WTaskDone =>
      match unfinished_tasks st with
      | 0 =>
          Some (set_thread i
                  (WCrashed (Exn ValueError "task_done() called too many times")) st)
      | S u =>
          Some {| port_queue := port_queue st; unfinished_tasks := u;
                  output_queue := output_queue st;
                  threads := <[i := WCheck]> (threads st);
                  main := main st; probes := probes st; world := world st |}
      end
  | Some WExit => None
  | Some (WCrashed _) => None
  end.

Definition step (host : string) (t : tid) (st : pool) : option pool :=
  match t with
  | Main => step_main st
  | Worker i => step_worker host i st
  end.

Definition all_tids (st : pool) : list tid :=
  Main :: (Worker <$> seq 0 (length (threads st))).

(** The states one step of a runnable thread leads to. *)
Definition successors (host : string) (st : pool) : list pool :=
  omap (fun t => step host t st) (all_tids st).

Inductive run_result : Type :=
| Returned (open_ports : list Z) (st : pool)
| Blocked (st : pool)       (* no thread can move: [join] never returns *)
| OutOfFuel (st : pool).

(** Run the pool until the calling thread returns; the scheduler picks
    the thread that moves among those that can. *)
Fixpoint run (host : string) (fuel : nat) (st : pool) : run_result :=
  match main st with
  | MReturned open_ports => Returned open_ports st
  | _ =>
      match fuel with
      | 0 => OutOfFuel st
      | S fuel' =>
          let '(k, w') := os_schedule sys (world st) in
          let st1 := set_world w' st in
          match successors host st1 with
          | [] => Blocked st1
          | s0 :: ss => run host fuel' (nth (k mod length (s0 :: ss)) (s0 :: ss) s0)
          end
      end
  end.

(** A bound on the number of steps left. *)
Definition wstate_weight (ws : wstate) : nat :=
  match ws with
  | WCheck => 2
  | WGet => 1
  | WProbe _ => 6
  | WPut _ => 5
  | WTaskDone => 3
  | WExit => 0
  | WCrashed _ => 0
  end.

Definition mstate_weight (m : mstate) : nat :=
  match m with
  | MSpawn k => 3 + 3 * k
  | MJoin => 2
  | MDrain _ => 1
  | MReturned _ => 0
  end.

Definition steps_left (st : pool) : nat :=
  mstate_weight (main st) + 6 * length (port_queue st)
  + length (output_queue st) + sum_list_with wstate_weight (threads st).

Definition port_scanner_init (start_port end_port num_threads : Z)
    (w : World sys) : pool :=
  {| port_queue := py_range start_port end_port;
     unfinished_tasks := length (py_range start_port end_port);
     output_queue := [];
     threads := [];
     main := MSpawn (Z.to_nat num_threads);
     probes := [];
     world := w |}.

Definition port_scanner_run (host : string) (start_port end_port num_threads : Z)
    (w : World sys) : run_result :=
  let st := port_scanner_init start_port end_port num_threads w in
  run host (steps_left st) st.

(** ** Sequential code: state, exceptions and calls that never return *)

Record env : Type := {
  env_world : World sys;
  env_trace : list event;
}.

Inductive outcome (A : Type) : Type :=
| Returns (a : A) (e : env)
| Raises (x : exn) (e : env)
| Hangs (e : env).
Arguments Returns {A} a e.
Arguments Raises {A} x e.
Arguments Hangs {A} e.

Definition M (A : Type) : Type := env -> outcome A.

#[export] Instance M_ret : MRet M := fun A (a : A) (e : env) => Returns a e.

#[export] Instance M_bind : MBind M :=
  fun A B (k : A -> M B) (m : M A) (e : env) =>
    match m e with
    | Returns a e' => k a e'
    | Raises x e' => Raises x e'
    | Hangs e' => Hangs e'
    end.

(** [try: m  except <classes>: h]; [handles] tells the classes caught. *)
Definition try_except {A} (m : M A) (handles : exn_class -> bool)
    (h : exn -> M A) : M A :=
  fun e =>
    match m e with
    | Raises x e' => if handles (exn_cls x) then h x e' else Raises x e'
    | o => o
    end.

(** [except Exception] *)
Definition any_Exception (c : exn_class) : bool := true.

Definition log_event (ev : event) (e : env) : env :=
  {| env_world := env_world e; env_trace := env_trace e ++ [ev] |}.

(** A call into the system, recorded in the trace. *)
Definition call {A} (op : World sys -> result A * World sys)
    (ev : result A -> event) : M A :=
  fun e =>
    let '(r, w') := op (env_world e) in
    let e' := {| env_world := w'; env_trace := env_trace e ++ [ev r] |} in
    match r with
    | Ok a => Returns a e'
    | Exc x => Raises x e'
    end.

Definition print (msg : string) : M unit :=
  fun e => Returns tt (log_event (EvPrint msg) e).

Definition platform_system_call : M string :=
  fun e => Returns (platform_system sys (env_world e)) e.

Definition subprocess_run_call (argv : list string) : M Z :=
  call (subprocess_run sys argv) (EvPing argv).

(** ** is_host_online *)

Definition is_host_online (host : string) : M bool :=
  try_except
    (system ← platform_system_call;
     returncode ←
       (if String.eqb system "Windows"
        then subprocess_run_call ["ping"; "-n"; "1"; host]
        else subprocess_run_call ["ping"; "-c"; "1"; host]);
     mret (returncode =? 0)%Z)
    any_Exception
    (fun _ => mret false).

(** ** get_host_info *)

Definition get_host_info (host : string) : M (string * list string) :=
  try_except
    (r ← call (gethostbyaddr sys host) (EvResolve host);
     mret (r.1.1, r.1.2))
    is_herror_or_gaierror
    (fun _ => mret ("Unknown", [])).

(** ** port_scanner *)

Definition probe_events (host : string) (l : list (Z * result Z)) : list event :=
  (fun pr => EvProbe host pr.1 pr.2) <$> l.

(** [port_scanner] returns when the run of its pool does, and never
    returns when the pool is blocked; the run does not end for want of
    fuel ([port_scanner_run_inv] below). *)
Definition port_scanner (host : string) (start_port end_port num_threads : Z)
    : M (list Z) :=
  fun e =>
    let after st :=
      {| env_world := world st;
         env_trace := env_trace e
                      ++ EvPortScan host start_port end_port num_threads
                         :: probe_events host (probes st) |} in
    match port_scanner_run host start_port end_port num_threads (env_world e) with
    | Returned open_ports st => Returns open_ports (after st)
    | Blocked st => Hangs (after st)
    | OutOfFuel st => Hangs (after st)
    end.

(** ** scan_from_file *)

(** The body of [for host in host_list]. *)
Definition scan_from_file_body (start_port end_port num_threads : Z)
    (host : string) (results : report) : M report :=
  print ("Scanning " ++ host ++ "...");;
  online ← is_host_online host;
  let state := if online : bool then "Online" else "Offline" in
  info ← get_host_info host;
  open_ports ←
    (if String.eqb state "Online"
     then port_scanner host start_port end_port num_threads
     else mret []);
  mret (dict_set host
         [("State", FStr state);
          ("Hostname", FStr info.1);
          ("Alias", FStrs info.2);
          ("Open Ports", FInts open_ports)]
         results).

Fixpoint for_each {A S} (body : A -> S -> M S) (l : list A) (s : S) : M S :=
  match l with
  | [] => mret s
  | a :: l' => s' ← body a s; for_each body l' s'
  end.

Definition scan_from_file (host_list : list string)
    (start_port end_port num_threads : Z) (output_filename : string) : M unit :=
  results ←
    for_each (scan_from_file_body start_port end_port num_threads) host_list [];
  try_except
    (call (json_dump_file sys output_filename results)
          (EvDump output_filename results);;
     print ("Scan results saved to " ++ output_filename))
    is_OSError
    (fun x => print ("Error writing output file: " ++ exn_msg x)).

End Program.

Arguments Returns {sys A} a e.
Arguments Raises {sys A} x e.
Arguments Hangs {sys A} e.
Arguments Build_env {sys} env_world env_trace.
Arguments env_world {sys} e.
Arguments env_trace {sys} e.
Arguments log_event {sys} ev e.
Arguments Build_probe_outcome {sys} po_raised po_output_queue po_socket po_world.
Arguments po_raised {sys} p.
Arguments po_output_queue {sys} p.
Arguments po_socket {sys} p.
Arguments po_world {sys} p.
Arguments Build_pool {sys} port_queue unfinished_tasks output_queue threads main
  probes world.
Arguments port_queue {sys} p.
Arguments unfinished_tasks {sys} p.
Arguments output_queue {sys} p.
Arguments threads {sys} p.
Arguments main {sys} p.
Arguments probes {sys} p.
Arguments world {sys} p.
Arguments set_world {sys} w st.
Arguments set_main {sys} m st.
Arguments set_thread {sys} i ws st.
Arguments step_main {sys} st.
Arguments step_worker {sys} host i st.
Arguments step {sys} host t st.
Arguments all_tids {sys} st.
Arguments successors {sys} host st.
Arguments Returned {sys} open_ports st.
Arguments Blocked {sys} st.
Arguments OutOfFuel {sys} st.
Arguments run {sys} host fuel st.
Arguments steps_left {sys} st.

(** ** Text *)

(** A [string] stands for a Python [str], as the bytes of its UTF-8
    encoding.  [str.strip] and [int] work on the characters (code
    points) of the text. *)

Definition is_continuation (b : N) : bool := (128 <=? b)%N && (b <=? 191)%N.

(** The code points of a text; [None] when the bytes are not the
    encoding of one. *)
Fixpoint utf8_decode (s : string) : option (list N) :=
  match s with
  | EmptyString => Some []
  | String c0 s0 =>
      let b0 := N_of_ascii c0 in
      if (b0 <? 128)%N then cons b0 <$> utf8_decode s0
      else
        match s0 with
        | EmptyString => None
        | String c1 s1 =>
            let b1 := N_of_ascii c1 in
            if (194 <=? b0)%N && (b0 <=? 223)%N then
              if is_continuation b1
              then cons ((b0 - 192) * 64 + (b1 - 128))%N <$> utf8_decode s1
              else None
            else
              match s1 with
              | EmptyString => None
              | String c2 s2 =>
                  let b2 := N_of_ascii c2 in
                  if (224 <=? b0)%N && (b0 <=? 239)%N then
                    let cp := ((b0 - 224) * 4096 + (b1 - 128) * 64
                               + (b2 - 128))%N in
                    if is_continuation b1 && is_continuation b2
                       && (2048 <=? cp)%N
                       && negb ((55296 <=? cp)%N && (cp <=? 57343)%N)
                    then cons cp <$> utf8_decode s2
                    else None
                  else
                    match s2 with
                    | EmptyString => None
                    | String c3 s3 =>
                        let b3 := N_of_ascii c3 in
                        let cp := ((b0 - 240) * 262144 + (b1 - 128) * 4096
                                   + (b2 - 128) * 64 + (b3 - 128))%N in
                        if (240 <=? b0)%N && (b0 <=? 244)%N
                           && is_continuation b1 && is_continuation b2
                           && is_continuation b3
                           && (65536 <=? cp)%N && (cp <=? 1114111)%N
                        then cons cp <$> utf8_decode s3
                        else None
                    end
              end
        end
  end.

Definition utf8_encode_point (cp : N) : string :=
  let byte (n : N) := ascii_of_N n in
  if (cp <? 128)%N then String (byte cp) EmptyString
  else if (cp <? 2048)%N then
    String (byte (192 + cp / 64)%N)
      (String (byte (128 + cp mod 64)%N) EmptyString)
  else if (cp <? 65536)%N then
    String (byte (224 + cp / 4096)%N)
      (String (byte (128 + (cp / 64) mod 64)%N)
         (String (byte (128 + cp mod 64)%N) EmptyString))
  else
    String (byte (240 + cp / 262144)%N)
      (String (byte (128 + (cp / 4096) mod 64)%N)
         (String (byte (128 + (cp / 64) mod 64)%N)
            (String (byte (128 + cp mod 64)%N) EmptyString))).

Definition utf8_encode (l : list N) : string :=
  foldr (fun cp s => String.append (utf8_encode_point cp) s) EmptyString l.

(** [Py_UNICODE_ISSPACE]: the white space of [str.strip()] and
    [str.isspace()]. *)
Definition is_space (cp : N) : bool :=
  ((9 <=? cp) && (cp <=? 13) || (28 <=? cp) && (cp <=? 32)
   || (cp =? 133) || (cp =? 160) || (cp =? 5760)
   || (8192 <=? cp) && (cp <=? 8202)
   || (cp =? 8232) || (cp =? 8233) || (cp =? 8239) || (cp =? 8287)
   || (cp =? 12288))%N.

Fixpoint lstrip (is_sp : N -> bool) (l : list N) : list N :=
  match l with
  | [] => []
  | cp :: l' => if is_sp cp then lstrip is_sp l' else l
  end.

Fixpoint rstrip (is_sp : N -> bool) (l : list N) : list N :=
  match l with
  | [] => []
  | cp :: l' =>
      match rstrip is_sp l' with
      | [] => if is_sp cp then [] else [cp]
      | r => cp :: r
      end
  end.

(** [str.strip()] *)
Definition py_strip (s : string) : string :=
  match utf8_decode s with
  | Some l => utf8_encode (rstrip is_space (lstrip is_space l))
  | None => s
  end.

(** [Py_ISSPACE]: the white space [int] skips before the sign and
    after the digits.  The separators [\x1c] to [\x1f], which
    [str.strip] removes, are not among it. *)
Definition is_c_space (cp : N) : bool :=
  ((9 <=? cp) && (cp <=? 13) || (cp =? 32))%N.

(** The characters with the value 0 among the decimal digits of
    Unicode 14.0 ([unicodedata.unidata_version] of Python 3.11); the
    digits 1 to 9 of each script follow its 0. *)
Definition decimal_zeros : list N :=
    [48; 1632; 1776; 1984; 2406; 2534; 2662; 2790; 2918; 3046; 3174; 3302;
     3430; 3558; 3664; 3792; 3872; 4160; 4240; 6112; 6160; 6470; 6608;
     6784; 6800; 6992; 7088; 7232; 7248; 42528; 43216; 43264; 43472; 43504;
     43600; 44016; 65296; 66720; 68912; 69734; 69872; 69942; 70096; 70384;
     70736; 70864; 71248; 71360; 71472; 71904; 72016; 72784; 73040; 73120;
     92768; 92864; 93008; 120782; 120792; 120802; 120812; 120822; 123200;
     123632; 125264; 130032]%N.

(** [Py_UNICODE_TODECIMAL] *)
Definition decimal_value (cp : N) : option N :=
  (fun zero => cp - zero)%N
    <$> List.find (fun zero => (zero <=? cp) && (cp <? zero + 10))%N
          decimal_zeros.

(** [_PyUnicode_TransformDecimalAndSpaceToASCII]: [int] takes a white
    space beyond ASCII for a space and a decimal digit of any script
    for its ASCII digit, and refuses every other character beyond
    ASCII. *)
Definition to_ascii_digit_or_space (cp : N) : option N :=
  if (cp <? 127)%N then Some cp
  else if is_space cp then Some 32%N
  else (fun d => 48 + d)%N <$> decimal_value cp.

Definition digit_value (cp : N) : option Z :=
  if (48 <=? cp)%N && (cp <=? 57)%N then Some (Z.of_N (cp - 48)) else None.

(** Digits with single underscores between them; [after_digit] tells
    that the previous character was a digit. *)
Fixpoint parse_digits (l : list N) (acc : Z) (ndigits : nat) (after_digit : bool)
    : option (Z * nat) :=
  match l with
  | [] => if after_digit then Some (acc, ndigits) else None
  | cp :: l' =>
      match digit_value cp with
      | Some d => parse_digits l' (10 * acc + d)%Z (S ndigits) true
      | None =>
          if (cp =? 95)%N && after_digit
          then parse_digits l' acc ndigits false
          else None
      end
  end.

(** [sys.int_info.default_max_str_digits] *)
Definition max_str_digits : nat := 4300.

(** [int(s)] for a [str] in base 10; [None] stands for [ValueError]. *)
Definition py_int (s : string) : option Z :=
  match utf8_decode s ≫= mapM to_ascii_digit_or_space with
  | Some l =>
      let l := lstrip is_c_space l in
      let '(negative, body) :=
        match l with
        | 45%N :: l' => (true, l')
        | 43%N :: l' => (false, l')
        | _ => (false, l)
        end in
      match parse_digits (rstrip is_c_space body) 0 0 false with
      | Some (n, ndigits) =>
          if (ndigits <=? max_str_digits)%nat
          then Some (if negative : bool then (- n)%Z else n)
          else None
      | None => None
      end
  | None => None
  end.

(** ** get_threads_count *)

Definition default_threads : Z := 100.

(** [stdin] holds the lines of standard input up to its end; [None]:
    no line is accepted, and the function never returns (at the end of
    the input its loop asks again for ever). *)
Fixpoint get_threads_count (stdin : list string) : option Z :=
  match stdin with
  | [] => None
  | line :: rest =>
      let threads := py_strip line in
      if String.eqb threads "" then Some default_threads
      else
        match py_int threads with
        | Some n => Some n
        | None => get_threads_count rest
        end
  end.

(** ** A small system to run the program on *)

(** The world counts the calls made.  10.0.0.1 answers the ping and has
    ports 22 and 80 open; 10.0.0.3 answers once three calls have been
    made; every other host is silent. *)
Definition demo_sys : System :=
  {| World := nat;
     platform_system := fun _ => "Linux";
     subprocess_run := fun argv w =>
       let host := List.last argv "" in
       (Ok (if String.eqb host "10.0.0.1" then 0
            else if String.eqb host "10.0.0.3" && (3 <=? w)%nat then 0
            else 1)%Z, S w);
     gethostbyaddr := fun host w =>
       (if String.eqb host "10.0.0.1"
        then Ok ("gateway.lan", ["gw"], [host])
        else Exc (Exn SocketHerror "Unknown host"), S w);
     connect_ex := fun host port w =>
       (Ok (if (port =? 22)%Z || (port =? 80)%Z then 0 else 111)%Z, S w);
     os_schedule := fun w => (w, S w);
     json_dump_file := fun _ _ w => (Ok tt, S w) |}.

Definition demo_env : env demo_sys := Build_env (sys := demo_sys) 0 [].

(** What [socket.gethostbyaddr] raises before any lookup when a label of
    the name is empty or longer than 63 characters. *)
Definition idna_error : exn :=
  Exn UnicodeError
    "encoding with 'idna' codec failed (UnicodeError: label empty or too long)".

Fixpoint has_empty_label (s : string) : bool :=
  match s with
  | String "."%char (String "."%char _) => true
  | String _ s' => has_empty_label s'
  | EmptyString => false
  end.

(** [demo_sys] with a resolver that refuses names with an empty label. *)
Definition idna_sys : System :=
  {| World := nat;
     platform_system := platform_system demo_sys;
     subprocess_run := subprocess_run demo_sys;
     gethostbyaddr := fun host w =>
       if has_empty_label host then (Exc idna_error, S w)
       else gethostbyaddr demo_sys host w;
     connect_ex := connect_ex demo_sys;
     os_schedule := os_schedule demo_sys;
     json_dump_file := json_dump_file demo_sys |}.

(** [demo_sys] on which the name "nowhere.invalid" does not resolve:
    [connect_ex] gives return codes for the failures of the connection
    itself and raises [socket.gaierror] for a name it cannot resolve. *)
Definition unresolved_sys : System :=
  {| World := nat;
     platform_system := platform_system demo_sys;
     subprocess_run := subprocess_run demo_sys;
     gethostbyaddr := gethostbyaddr demo_sys;
     connect_ex := fun host port w =>
       if String.eqb host "nowhere.invalid"
       then (Exc (Exn SocketGaierror "[Errno -2] Name or service not known"),
             S w)
       else connect_ex demo_sys host port w;
     os_schedule := os_schedule demo_sys;
     json_dump_file := json_dump_file demo_sys |}.

(** ** The prompts and the host file *)

(** What [input] raises at the end of standard input. *)
Definition EOF_error : exn := Exn EOFError "EOF when reading a line".

(** The classes caught by [except ValueError]. *)
Definition is_ValueError (c : exn_class) : bool :=
  match c with ValueError | UnicodeError => true | _ => false end.

Definition is_FileNotFoundError (c : exn_class) : bool :=
  match c with FileNotFoundError => true | _ => false end.

Section Interactive.

Variable sys : System.

(** Lines 174 and 175, [open(input_file)] and [try_file.close()], which
    stand in the same [try]: done, or the exception of the one that
    failed.  Nothing is read. *)
Variable open_file : string -> World sys -> result unit * World sys.

(** Lines 183 and 184, [with open(input_file) as working_file] and the
    iteration [for line in working_file], which stand under no
    handler: the lines of the file, each with its end of line, or the
    exception of the opening, of a read (a line that cannot be
    decoded) or of the closing. *)
Variable read_file : string -> World sys -> result (list string) * World sys.

(** [ipaddress.ip_address(s)] accepts [s]. *)
Variable ip_address : string -> bool.

Definition raise {A} (x : exn) : M sys A := fun e => Raises x e.

(** A call into the file system, which changes the world only. *)
Definition fs_call {A} (op : World sys -> result A * World sys) : M sys A :=
  fun e =>
    let '(r, w') := op (env_world e) in
    let e' := {| env_world := w'; env_trace := env_trace e |} in
    match r with
    | Ok a => Returns a e'
    | Exc x => Raises x e'
    end.

(** [input(prompt)].  Standard input is the sequence of the lines
    typed, followed by its end; the functions that read it take the
    lines still to come and give back those they have not read.  At
    the end of the input [input] writes the prompt and raises
    [EOFError]. *)
Definition input (prompt : string) (stdin : list string)
    : M sys (string * list string) :=
  print sys prompt;;
  match stdin with
  | [] => raise EOF_error
  | line :: rest => mret (line, rest)
  end.

(** A loop whose turns have become all alike, each one writing what
    the one before wrote: the call never returns. *)
Definition loops_for_ever {A} : M sys A := fun e => Hangs e.

(** [int(s)] as a call.  The message of its [ValueError], which the
    program never shows, is cut short. *)
Definition int_call (s : string) : M sys Z :=
  match py_int s with
  | Some n => mret n
  | None => raise (Exn ValueError "invalid literal for int() with base 10")
  end.

(** The first loop of [check_file]: ask until a path can be opened.
    [input] stands outside the [try]. *)
Fixpoint check_file_prompt (stdin : list string) : M sys (string * list string) :=
  match stdin with
  | [] => input "Enter the path to the file containing IP addresses: " []
  | input_file :: rest =>
      input "Enter the path to the file containing IP addresses: " stdin;;
      opened ←
        try_except sys
          (try_except sys
             (fs_call (open_file input_file);; mret true)
             is_FileNotFoundError
             (fun _ =>
                print sys ("File " ++ input_file
                           ++ " was not found! Please try again.");;
                mret false))
          any_Exception
          (fun x => print sys ("An error occurred: " ++ exn_msg x);; mret false);
      if opened : bool then mret (input_file, rest)
      else check_file_prompt rest
  end.

(** The second loop of [check_file], over the lines of the file. *)
Fixpoint collect_addresses (lines : list string) (return_list : list string)
    : list string :=
  match lines with
  | [] => return_list
  | line :: rest =>
      let line := py_strip line in
      collect_addresses rest
        (if ip_address line
         then if bool_decide (line ∈ return_list)
              then return_list
              else return_list ++ [line]
         else return_list)
  end.

Definition check_file (stdin : list string) : M sys (list string * list string) :=
  '(input_file, stdin) ← check_file_prompt stdin;
  lines ← fs_call (read_file input_file);
  mret (collect_addresses lines [], stdin).

(** One turn of a loop of [TCP_port_check]: the [try] with its two
    handlers.  [Some port]: the loop is left by [break]. *)
Definition port_turn (prompt : string) (low : Z) (stdin : list string)
    : M sys (option Z) :=
  try_except sys
    (try_except sys
       ('(line, rest) ← input prompt stdin;
        port ← int_call line;
        if (low <=? port)%Z && (port <=? 65000)%Z then mret (Some port)
        else raise (Exn ValueError ""))
       is_ValueError
       (fun _ =>
          print sys ("Entry is invalid! Please enter a number from "
                     ++ pretty low ++ " to 65000.");;
          mret None))
    any_Exception
    (fun x => print sys (exn_msg x);; mret None).

(** One loop of [TCP_port_check]: ask until the entry is a number from
    [low] to 65000.  The function has this loop twice, for the start
    port with [low = 1] and for the end port with [low = start_port].
    At the end of the input the [EOFError] of [input] is caught and
    written, and the loop asks again, for ever. *)
Fixpoint ask_port (prompt : string) (low : Z) (stdin : list string)
    : M sys (Z * list string) :=
  match stdin with
  | [] => port_turn prompt low [];; loops_for_ever
  | _ :: rest =>
      entry ← port_turn prompt low stdin;
      match entry with
      | Some port => mret (port, rest)
      | None => ask_port prompt low rest
      end
  end.

Definition TCP_port_check (stdin : list string) : M sys (Z * Z * list string) :=
  '(start_port, stdin) ← ask_port "Enter the start TCP port: " 1 stdin;
  '(end_port, stdin) ← ask_port "Enter the end TCP port: " start_port stdin;
  mret (start_port, end_port, stdin).

(** One turn of the loop of [get_threads_count]. *)
Definition threads_turn (stdin : list string) : M sys (option Z) :=
  try_except sys
    (try_except sys
       ('(line, rest) ←
          input "Enter the number of threads to use (default 100): " stdin;
        let threads := py_strip line in
        if String.eqb threads "" then mret (Some default_threads)
        else threads ← int_call threads; mret (Some threads))
       is_ValueError
       (fun _ =>
          print sys ("Invalid entry! Please enter a valid number "
                     ++ "or press Enter to use the default.");;
          mret None))
    any_Exception
    (fun x => print sys (exn_msg x);; mret None).

(** [get_threads_count] with what it prints and the lines it leaves. *)
Fixpoint get_threads_count_io (stdin : list string) : M sys (Z * list string) :=
  match stdin with
  | [] => threads_turn [];; loops_for_ever
  | _ :: rest =>
      entry ← threads_turn stdin;
      match entry with
      | Some threads => mret (threads, rest)
      | None => get_threads_count_io rest
      end
  end.

(** The program: the block under [if __name__ == "__main__"]. *)
Definition main_block (stdin : list string) : M sys unit :=
  '(host_list, stdin) ← check_file stdin;
  '(start_port, end_port, stdin) ← TCP_port_check stdin;
  '(threads, stdin) ← get_threads_count_io stdin;
  '(output_file, stdin) ← input "Enter the output filename (JSON format): " stdin;
  scan_from_file sys host_list start_port end_port threads output_file.

End Interactive.

(** A file system and an address check to run the prompts on:
    "hosts.txt" is a list of hosts, "secret.txt" may not be opened,
    "binary.dat" can be opened and holds bytes that are no text, and
    there is no other file. *)
Definition nl : string := String (Ascii.ascii_of_nat 10) EmptyString.

Definition demo_open_file (path : string) (w : World demo_sys)
    : result unit * World demo_sys :=
  (if String.eqb path "hosts.txt" || String.eqb path "binary.dat"
   then Ok tt
   else if String.eqb path "secret.txt"
   then Exc (Exn PermissionError "[Errno 13] Permission denied: 'secret.txt'")
   else Exc (Exn FileNotFoundError
               ("[Errno 2] No such file or directory: '" ++ path ++ "'")),
   S w).

Definition demo_read_file (path : string) (w : World demo_sys)
    : result (list string) * World demo_sys :=
  (if String.eqb path "hosts.txt"
   then Ok [String.append " 10.0.0.1" nl; String.append "10.0.0.2" nl;
            String.append "not an address" nl; String.append "10.0.0.1 " nl; nl]
   else if String.eqb path "binary.dat"
   then Exc (Exn UnicodeError
               ("'utf-8' codec can't decode byte 0xff in position 0: "
                ++ "invalid start byte"))
   else match (demo_open_file path w).1 with
        | Ok _ => Ok []
        | Exc x => Exc x
        end,
   S w).

(** Dotted names of the three hosts of [demo_sys] and nothing else. *)
Definition demo_ip_address (s : string) : bool :=
  String.eqb s "10.0.0.1" || String.eqb s "10.0.0.2" || String.eqb s "10.0.0.3".

(** ** Vocabulary of the specification *)

(** The workers that took a port from [port_queue] and have not yet
    called [task_done] for it. *)
Definition holds_task (ws : wstate) : nat :=
  match ws with
  | WProbe _ | WPut _ | WTaskDone | WCrashed _ => 1
  | WCheck | WGet | WExit => 0
  end.

Definition tasks_held (l : list wstate) : nat := sum_list_with holds_task l.

(** The port a worker has taken and not yet probed. *)
Definition probing (ws : wstate) : list Z :=
  match ws with WProbe p => [p] | _ => [] end.

(** The open port a worker has found and not yet published. *)
Definition putting (ws : wstate) : list Z :=
  match ws with WPut p => [p] | _ => [] end.

(** The ports [connect_ex] was called on, in call order. *)
Definition probed {sys} (st : pool sys) : list Z := (probes st).*1.

Definition answered_open (pr : Z * result Z) : option Z :=
  match pr.2 with
  | Ok rc => if (rc =? 0)%Z then Some pr.1 else None
  | Exc _ => None
  end.

(** The ports a probe saw open: [connect_ex] returned 0. *)
Definition observed_open (l : list (Z * result Z)) : list Z := omap answered_open l.

(** What the calling thread has moved into [open_ports]. *)
Definition collected (m : mstate) : list Z :=
  match m with
  | MDrain a | MReturned a => a
  | MSpawn _ | MJoin => []
  end.

Definition to_spawn (m : mstate) : nat :=
  match m with MSpawn k => k | _ => 0 end.

Definition is_returned (m : mstate) : bool :=
  match m with MReturned _ => true | _ => false end.

Definition is_crashed (ws : wstate) : bool :=
  match ws with WCrashed _ => true | _ => false end.

(** The steps of the pool, one constructor per statement of [worker],
    [scan_port] and [port_scanner] that touches shared state. *)
Inductive pool_step {sys} (host : string) : pool sys -> pool sys -> Prop :=
| PS_spawn pq u oq ths k pr w :
    pool_step host (Build_pool pq u oq ths (MSpawn (S k)) pr w)
                   (Build_pool pq u oq (ths ++ [WCheck]) (MSpawn k) pr w)
| PS_spawned pq u oq ths pr w :
    pool_step host (Build_pool pq u oq ths (MSpawn 0) pr w)
                   (Build_pool pq u oq ths MJoin pr w)
| PS_joined pq oq ths pr w :
    pool_step host (Build_pool pq 0 oq ths MJoin pr w)
                   (Build_pool pq 0 oq ths (MDrain []) pr w)
| PS_drain pq u p oq ths a pr w :
    pool_step host (Build_pool pq u (p :: oq) ths (MDrain a) pr w)
                   (Build_pool pq u oq ths (MDrain (a ++ [p])) pr w)
| PS_return pq u ths a pr w :
    pool_step host (Build_pool pq u [] ths (MDrain a) pr w)
                   (Build_pool pq u [] ths (MReturned a) pr w)
| PS_check_empty u oq l1 l2 m pr w :
    pool_step host (Build_pool [] u oq (l1 ++ WCheck :: l2) m pr w)
                   (Build_pool [] u oq (l1 ++ WExit :: l2) m pr w)
| PS_check_some p pq u oq l1 l2 m pr w :
    pool_step host (Build_pool (p :: pq) u oq (l1 ++ WCheck :: l2) m pr w)
                   (Build_pool (p :: pq) u oq (l1 ++ WGet :: l2) m pr w)
| PS_get p pq u oq l1 l2 m pr w :
    pool_step host (Build_pool (p :: pq) u oq (l1 ++ WGet :: l2) m pr w)
                   (Build_pool pq u oq (l1 ++ WProbe p :: l2) m pr w)
| PS_probe_open pq u oq l1 p l2 m pr w w' :
    connect_ex sys host p w = (Ok 0%Z, w') ->
    pool_step host (Build_pool pq u oq (l1 ++ WProbe p :: l2) m pr w)
                   (Build_pool pq u oq (l1 ++ WPut p :: l2) m
                      (pr ++ [(p, Ok 0%Z)]) w')
| PS_probe_closed pq u oq l1 p l2 m pr w rc w' :
    connect_ex sys host p w = (Ok rc, w') -> rc <> 0%Z ->
    pool_step host (Build_pool pq u oq (l1 ++ WProbe p :: l2) m pr w)
                   (Build_pool pq u oq (l1 ++ WTaskDone :: l2) m
                      (pr ++ [(p, Ok rc)]) w')
| PS_probe_raise pq u oq l1 p l2 m pr w x w' :
    connect_ex sys host p w = (Exc x, w') ->
    pool_step host (Build_pool pq u oq (l1 ++ WProbe p :: l2) m pr w)
                   (Build_pool pq u oq (l1 ++ WCrashed x :: l2) m
                      (pr ++ [(p, Exc x)]) w')
| PS_put pq u oq l1 p l2 m pr w :
    pool_step host (Build_pool pq u oq (l1 ++ WPut p :: l2) m pr w)
                   (Build_pool pq u (oq ++ [p]) (l1 ++ WTaskDone :: l2) m pr w)
| PS_task_done pq u oq l1 l2 m pr w :
    pool_step host (Build_pool pq (S u) oq (l1 ++ WTaskDone :: l2) m pr w)
                   (Build_pool pq u oq (l1 ++ WCheck :: l2) m pr w)
| PS_task_done_error pq oq l1 l2 m pr w :
    pool_step host
      (Build_pool pq 0 oq (l1 ++ WTaskDone :: l2) m pr w)
      (Build_pool pq 0 oq
         (l1 ++ WCrashed (Exn ValueError "task_done() called too many times") :: l2)
         m pr w).

(** What can happen to the pool: a thread makes a step, or the rest of
    the world moves on. *)
Inductive pool_move {sys} (host : string) : pool sys -> pool sys -> Prop :=
| PM_step st st' : pool_step host st st' -> pool_move host st st'
| PM_world w st : pool_move host st (set_world w st).

(** The states a pool can come to. *)
Definition pool_reach {sys} (host : string) : pool sys -> pool sys -> Prop :=
  rtc (pool_move host).

(** What holds of the pool of [port_scanner host start_port end_port
    num_threads] all along. *)
Record pool_inv {sys} (start_port end_port num_threads : Z) (st : pool sys)
    : Prop := {
  inv_tasks :
    unfinished_tasks st = length (port_queue st) + tasks_held (threads st);
  inv_range :
    exists taken,
      py_range start_port end_port = taken ++ port_queue st /\
      taken ≡ₚ probed st ++ (threads st ≫= probing);
  inv_open :
    observed_open (probes st)
    ≡ₚ collected (main st) ++ output_queue st ++ (threads st ≫= putting);
  inv_joined :
    match main st with
    | MDrain _ | MReturned _ => unfinished_tasks st = 0
    | _ => True
    end;
  inv_returned :
    match main st with
    | MReturned _ => output_queue st = []
    | _ => True
    end;
  inv_threads :
    length (threads st) + to_spawn (main st) = Z.to_nat num_threads;
  inv_exit : WExit ∈ threads st -> port_queue st = [];
}.

(** The state a run stopped in. *)
Definition final_state {sys} (r : run_result sys) : pool sys :=
  match r with
  | Returned _ st | Blocked st | OutOfFuel st => st
  end.




(** The pool of a scan of an empty range: nothing queued, nothing
    probed, every worker about to leave or gone. *)
Definition pool_idle {sys} (st : pool sys) : Prop :=
  port_queue st = [] /\ unfinished_tasks st = 0 /\ output_queue st = [] /\
  probes st = [] /\ collected (main st) = [] /\
  Forall (fun ws => ws = WCheck \/ ws = WExit) (threads st).

(** Every logged probe is an answer [connect_ex] gave for that port. *)
Definition probes_sound {sys} (host : string) (st : pool sys) : Prop :=
  Forall (fun pr => exists w, (connect_ex sys host pr.1 w).1 = pr.2) (probes st).

(** [scan_port] as worker [i] runs it, from [connect_ex] to the return. *)
Definition worker_scan_port {sys} (host : string) (i : nat) (st : pool sys)
    : option (pool sys) :=
  match step_worker host i st with
  | Some st1 =>
      match threads st1 !! i with
      | Some (WPut _) => step_worker host i st1
      | _ => Some st1
      end
  | None => None
  end.

(** The command line of the ping. *)
Definition ping_argv (system host : string) : list string :=
  if String.eqb system "Windows"
  then ["ping"; "-n"; "1"; host]
  else ["ping"; "-c"; "1"; host].

(** The dictionary stored for a host. *)
Definition make_record (state hostname : string) (alias : list string)
    (open_ports : list Z) : host_record :=
  [("State", FStr state); ("Hostname", FStr hostname);
   ("Alias", FStrs alias); ("Open Ports", FInts open_ports)].

Definition outcome_env {sys A} (o : outcome sys A) : env sys :=
  match o with
  | Returns _ e | Raises _ e | Hangs e => e
  end.

(** What one turn of the loop of [scan_from_file] did. *)
Record host_scan : Type := {
  hs_host : string;
  hs_online : bool;
  hs_hostname : string;
  hs_alias : list string;
  hs_open_ports : list Z;
  hs_events : list event;
}.

Definition hs_record (o : host_scan) : host_record :=
  make_record (if hs_online o then "Online" else "Offline")
    (hs_hostname o) (hs_alias o) (hs_open_ports o).

Definition report_of (scans : list host_scan) : report :=
  foldl (fun rep o => dict_set (hs_host o) (hs_record o) rep) [] scans.

(** The turn of the loop for a host: one line printed, one ping, one
    resolution, then the port scan when the ping succeeded and nothing
    otherwise. *)
Definition host_scan_ok (start_port end_port num_threads : Z) (o : host_scan)
    : Prop :=
  exists system r1 r2 evs,
    hs_events o
    = [EvPrint ("Scanning " ++ hs_host o ++ "...");
       EvPing (ping_argv system (hs_host o)) r1;
       EvResolve (hs_host o) r2] ++ evs /\
    (hs_online o = true <-> r1 = Ok 0%Z) /\
    (hs_hostname o, hs_alias o)
    = match r2 with
      | Ok r => (r.1.1, r.1.2)
      | Exc _ => ("Unknown", [])
      end /\
    if hs_online o
    then exists l,
           evs = EvPortScan (hs_host o) start_port end_port num_threads
                 :: probe_events (hs_host o) l /\
           l.*1 ≡ₚ py_range start_port end_port /\
           hs_open_ports o ≡ₚ observed_open l
    else evs = [] /\ hs_open_ports o = [].

Definition is_dump (ev : event) : bool :=
  match ev with EvDump _ _ _ => true | _ => false end.

(** The events of a port scan. *)
Definition is_scan_event (ev : event) : bool :=
  match ev with EvPortScan _ _ _ _ | EvProbe _ _ _ => true | _ => false end.

(** The keys of a dictionary, in order. *)
Definition dict_keys {V} (d : dict V) : list string := d.*1.


(** The resolver fails with [socket.herror] or [socket.gaierror] only. *)
Definition resolver_errors_are_lookup_errors (sys : System) : Prop :=
  forall host w x,
    (gethostbyaddr sys host w).1 = Exc x -> is_herror_or_gaierror (exn_cls x) = true.


(** ** More vocabulary: the pool *)

(** A worker inside [scan_port]: its socket is in use. *)
Definition in_scan_port (ws : wstate) : bool :=
  match ws with
  | WProbe _ | WPut _ => true
  | _ => false
  end.

Definition probes_in_flight {sys} (st : pool sys) : nat :=
  length (filter (fun ws => in_scan_port ws = true) (threads st)).

(** A worker that holds no port: before the test of the loop, about to
    call [get], or gone. *)
Definition at_rest (ws : wstate) : bool :=
  match ws with
  | WCheck | WGet | WExit => true
  | _ => false
  end.

Definition crashed_count (l : list wstate) : nat :=
  sum_list_with (fun ws => if is_crashed ws then 1 else 0) l.

(** The probes that ended by an exception. *)
Definition raised_count (l : list (Z * result Z)) : nat :=
  sum_list_with (fun pr => if is_Ok pr.2 then 0 else 1) l.

(** [connect_ex] returned 0. *)
Definition answers_zero (r : result Z) : bool :=
  match r with
  | Ok rc => (rc =? 0)%Z
  | Exc _ => false
  end.

(** A network that does not change: the answer of [connect_ex] for a
    port of [host] is always [answer port]. *)
Definition static_network (sys : System) (host : string)
    (answer : Z -> result Z) : Prop :=
  forall port w, (connect_ex sys host port w).1 = answer port.

(** The pool with at most one worker: the ports leave the queue, are
    probed and reach [open_ports] in the order of the range. *)
Definition pool_seq {sys} (start_port end_port : Z) (st : pool sys) : Prop :=
  length (threads st) + to_spawn (main st) <= 1 /\
  py_range start_port end_port
  = (probed st ++ (threads st ≫= probing)) ++ port_queue st /\
  observed_open (probes st)
  = collected (main st) ++ output_queue st ++ (threads st ≫= putting).

(** ** More vocabulary: the batch and the prompts *)

(** Not a ping that ended with exit code 0. *)
Definition ping_failed (ev : event) : bool :=
  match ev with
  | EvPing _ r => negb (answers_zero r)
  | _ => true
  end.

(** An event that stays within what [scan_from_file] was asked: the
    hosts of the list, the ports of the range, the output file. *)
Definition event_within (host_list : list string)
    (start_port end_port num_threads : Z) (output_filename : string)
    (ev : event) : Prop :=
  match ev with
  | EvPrint _ => True
  | EvPing argv _ =>
      exists system host, host ∈ host_list /\ argv = ping_argv system host
  | EvResolve host _ => host ∈ host_list
  | EvPortScan host s e n =>
      host ∈ host_list /\ s = start_port /\ e = end_port /\ n = num_threads
  | EvProbe host port _ =>
      host ∈ host_list /\ (start_port <= port <= end_port)%Z
  | EvDump filename _ _ => filename = output_filename
  end.

(** Something written on the screen. *)
Definition is_print (ev : event) : bool :=
  match ev with EvPrint _ => true | _ => false end.

(** A computation that, whatever its outcome, adds to the trace only
    lines written on the screen. *)
Definition only_prints {sys A} (m : M sys A) : Prop :=
  forall e,
    exists prints,
      env_trace (outcome_env (m e)) = env_trace e ++ prints /\
      Forall (fun ev => is_print ev = true) prints.

(** What a line typed at a port prompt is taken for: a number from
    [low] to 65000, or nothing. *)
Definition accepted_port (low : Z) (line : string) : option Z :=
  match py_int line with
  | Some port =>
      if (low <=? port)%Z && (port <=? 65000)%Z then Some port else None
  | None => None
  end.

(** What a line typed at the thread prompt is taken for. *)
Definition accepted_threads (line : string) : option Z :=
  if String.eqb (py_strip line) "" then Some default_threads
  else py_int (py_strip line).

(** * Proofs *)

(** Two lists of ports are permutations of each other when every port
    occurs as often in the one as in the other. *)
Ltac count_ports H :=
  let z := fresh "z" in
  let Hz := fresh "Hz" in
  apply (Permutation_count_occ Z.eq_dec); intros z;
  pose proof (proj1 (Permutation_count_occ Z.eq_dec _ _) H z) as Hz;
  revert Hz;
  rewrite ?bind_app, ?bind_cons, ?fmap_app, ?count_occ_app; simpl;
  rewrite ?count_occ_app; simpl;
  repeat destruct (Z.eq_dec _ _); lia.

Section Pool.

Context {sys : System}.
Implicit Types (st : pool sys) (ws : wstate) (l : list wstate).

(** ** Lists of thread states *)

Lemma lookup_split l i ws :
  l !! i = Some ws ->
  exists l1 l2, l = l1 ++ ws :: l2 /\ forall ws', <[i := ws']> l = l1 ++ ws' :: l2.
Proof.
  intros H. apply list_elem_of_split_length in H as (l1 & l2 & -> & ->).
  exists l1, l2. split; [done|]. intros ws'.
  replace (length l1) with (length l1 + 0) by lia.
  by rewrite insert_app_r.
Qed.

Lemma tasks_held_app l1 l2 : tasks_held (l1 ++ l2) = tasks_held l1 + tasks_held l2.
Proof. apply sum_list_with_app. Qed.

Lemma tasks_held_cons ws l : tasks_held (ws :: l) = holds_task ws + tasks_held l.
Proof. done. Qed.

Lemma tasks_held_0 l :
  tasks_held l = 0 -> l ≫= probing = [] /\ l ≫= putting = [].
Proof.
  induction l as [|ws l IH]; [done|]. rewrite tasks_held_cons. intros H.
  destruct IH as [IH1 IH2]; [lia|].
  rewrite !bind_cons, IH1, IH2. destruct ws; simpl in *; done || lia.
Qed.

(** ** From the step function to the step relation *)

Lemma step_main_sound host st st' : step_main st = Some st' -> pool_step host st st'.
Proof.
  destruct st as [pq u oq ths m pr w]. unfold step_main, set_main; simpl.
  destruct m as [[|k]| |a|a]; simpl.
  - intros [= <-]. constructor.
  - intros [= <-]. constructor.
  - destruct u; intros [= <-]. constructor.
  - destruct oq; intros [= <-]; constructor.
  - done.
Qed.

Lemma step_worker_sound host i st st' :
  step_worker host i st = Some st' -> pool_step host st st'.
Proof.
  destruct st as [pq u oq ths m pr w]. unfold step_worker, set_thread; simpl.
  destruct (ths !! i) as [ws|] eqn:Hi; [|done].
  apply lookup_split in Hi as (l1 & l2 & -> & Hins).
  destruct ws as [| |p|p| | |x].
  - destruct pq; intros [= <-]; rewrite Hins; constructor.
  - destruct pq; [done|]. intros [= <-]. rewrite Hins. constructor.
  - destruct (connect_ex sys host p w) as [r w'] eqn:Hc.
    intros [= <-]. rewrite Hins. destruct r as [rc|x].
    + destruct (Z.eqb_spec rc 0) as [->|Hrc].
      * by constructor.
      * by constructor.
    + by constructor.
  - intros [= <-]. rewrite Hins. constructor.
  - destruct u; intros [= <-]; rewrite Hins; constructor.
  - done.
  - done.
Qed.

Lemma step_sound host t st st' : step host t st = Some st' -> pool_step host st st'.
Proof.
  destruct t; [apply step_main_sound | apply step_worker_sound].
Qed.

Lemma successors_sound host st st' :
  st' ∈ successors host st -> pool_step host st st'.
Proof.
  unfold successors. rewrite list_elem_of_omap. intros (t & _ & H).
  by eapply step_sound.
Qed.

Lemma successors_enabled host st t st' :
  t ∈ all_tids st -> step host t st = Some st' -> successors host st <> [].
Proof.
  intros Ht Hs Hnil.
  assert (st' ∈ successors host st) as Hin.
  { unfold successors. rewrite list_elem_of_omap. eauto. }
  rewrite Hnil in Hin. by apply elem_of_nil in Hin.
Qed.


(** ** Every step uses up some of the steps left *)

Lemma pool_step_decreases host st st' :
  pool_step host st st' -> steps_left st' < steps_left st.
Proof.
  destruct 1; unfold steps_left; simpl;
    rewrite ?sum_list_with_app, ?length_app; simpl; lia.
Qed.

(** ** The invariant of the pool *)

Lemma observed_open_snoc_open pr p :
  observed_open (pr ++ [(p, Ok 0%Z)]) = observed_open pr ++ [p].
Proof. unfold observed_open. by rewrite omap_app. Qed.

Lemma observed_open_snoc_closed pr p rc :
  rc <> 0%Z -> observed_open (pr ++ [(p, Ok rc)]) = observed_open pr.
Proof.
  intros Hrc. unfold observed_open. rewrite omap_app. simpl.
  unfold answered_open; simpl. apply Z.eqb_neq in Hrc. rewrite Hrc.
  apply app_nil_r.
Qed.

Lemma observed_open_snoc_raise pr p x :
  observed_open (pr ++ [(p, Exc x)]) = observed_open pr.
Proof. unfold observed_open. rewrite omap_app. apply app_nil_r. Qed.

Lemma pool_step_tasks host st st' :
  pool_step host st st' ->
  unfinished_tasks st = length (port_queue st) + tasks_held (threads st) ->
  unfinished_tasks st' = length (port_queue st') + tasks_held (threads st').
Proof.
  destruct 1; simpl; rewrite ?tasks_held_app, ?tasks_held_cons; simpl; lia.
Qed.

Lemma pool_step_range host st st' (range : list Z) :
  pool_step host st st' ->
  (exists taken, range = taken ++ port_queue st /\
                 taken ≡ₚ probed st ++ (threads st ≫= probing)) ->
  exists taken, range = taken ++ port_queue st' /\
                taken ≡ₚ probed st' ++ (threads st' ≫= probing).
Proof.
  intros Hstep (taken & Hr & Ht). revert Hr Ht.
  destruct Hstep; unfold probed; simpl; intros Hr Ht;
    try (exists taken; split; [done|]; count_ports Ht).
  exists (taken ++ [p]). split.
  - by rewrite <- app_assoc.
  - count_ports Ht.
Qed.

Lemma pool_step_open host st st' :
  pool_step host st st' ->
  observed_open (probes st)
  ≡ₚ collected (main st) ++ output_queue st ++ (threads st ≫= putting) ->
  observed_open (probes st')
  ≡ₚ collected (main st') ++ output_queue st' ++ (threads st' ≫= putting).
Proof.
  destruct 1; simpl;
    rewrite ?observed_open_snoc_open, ?observed_open_snoc_closed,
      ?observed_open_snoc_raise by done;
    intros Ht; count_ports Ht.
Qed.

Lemma pool_step_exit host st st' :
  pool_step host st st' ->
  (WExit ∈ threads st -> port_queue st = []) ->
  WExit ∈ threads st' -> port_queue st' = [].
Proof.
  destruct 1; simpl; intros Hq Hin; try done;
    first [apply Hq | enough (p :: pq = []) by done; apply Hq];
    revert Hin;
    rewrite ?elem_of_app, ?elem_of_cons, ?elem_of_nil; intuition discriminate.
Qed.

Lemma pool_step_joined host st st' :
  pool_step host st st' ->
  unfinished_tasks st = length (port_queue st) + tasks_held (threads st) ->
  match main st with
  | MDrain _ | MReturned _ => unfinished_tasks st = 0
  | _ => True
  end ->
  match main st' with
  | MDrain _ | MReturned _ => unfinished_tasks st' = 0
  | _ => True
  end.
Proof.
  destruct 1; simpl; try done; rewrite ?tasks_held_app; simpl;
    destruct m; try done; lia.
Qed.

Lemma pool_step_returned host st st' :
  pool_step host st st' ->
  unfinished_tasks st = length (port_queue st) + tasks_held (threads st) ->
  match main st with
  | MDrain _ | MReturned _ => unfinished_tasks st = 0
  | _ => True
  end ->
  match main st with MReturned _ => output_queue st = [] | _ => True end ->
  match main st' with MReturned _ => output_queue st' = [] | _ => True end.
Proof.
  destruct 1; simpl; try done; rewrite ?tasks_held_app; simpl;
    destruct m; try done; lia.
Qed.

Lemma pool_step_threads host st st' :
  pool_step host st st' ->
  length (threads st') + to_spawn (main st')
  = length (threads st) + to_spawn (main st).
Proof. destruct 1; simpl; rewrite ?length_app; simpl; lia. Qed.

Lemma pool_step_inv start_port end_port num_threads host st st' :
  pool_step host st st' ->
  pool_inv start_port end_port num_threads st ->
  pool_inv start_port end_port num_threads st'.
Proof.
  intros Hstep [H1 H2 H3 H4 H5 H6 H7]. split.
  - by eapply pool_step_tasks.
  - by eapply pool_step_range.
  - by eapply pool_step_open.
  - by eapply pool_step_joined.
  - by eapply pool_step_returned.
  - by rewrite (pool_step_threads _ _ _ Hstep).
  - by eapply pool_step_exit.
Qed.

Lemma set_world_inv start_port end_port num_threads w st :
  pool_inv start_port end_port num_threads st ->
  pool_inv start_port end_port num_threads (set_world w st).
Proof. intros [H1 H2 H3 H4 H5 H6 H7]. by split. Qed.

(** ** Runs *)

Lemma nth_mod_elem_of {A} (k : nat) (x : A) (l : list A) :
  nth (k mod length (x :: l)) (x :: l) x ∈ x :: l.
Proof.
  apply list_elem_of_In, nth_In, Nat.mod_upper_bound. simpl. lia.
Qed.

Section Run.

Variable host : string.
Variable P : pool sys -> Prop.
Hypothesis P_step : forall st st', pool_step host st st' -> P st -> P st'.
Hypothesis P_world : forall w st, P st -> P (set_world w st).

(** A property that every step keeps holds where the run ends, and the
    run ends as its result says. *)
Lemma run_preserves fuel st :
  P st ->
  P (final_state (run host fuel st)) /\
  match run host fuel st with
  | Returned open_ports st' => main st' = MReturned open_ports
  | Blocked st' => successors host st' = [] /\ is_returned (main st') = false
  | OutOfFuel st' => is_returned (main st') = false
  end.
Proof.
  revert st. induction fuel as [|fuel IH]; intros st HP.
  - simpl. destruct (main st) eqn:Hm; simpl; rewrite ?Hm; done.
  - simpl. destruct (os_schedule sys (world st)) as [k w'].
    destruct (main st) eqn:Hm; [| | |simpl; done];
      (destruct (successors host (set_world w' st)) as [|s0 ss] eqn:Hs;
       [simpl; rewrite Hm; auto
       |apply IH; eapply P_step; [|apply P_world, HP];
        apply successors_sound; rewrite Hs; apply nth_mod_elem_of]).
Qed.

(** [steps_left] is enough fuel. *)
Lemma run_fuel fuel st :
  steps_left st <= fuel -> forall st', run host fuel st <> OutOfFuel st'.
Proof.
  revert st. induction fuel as [|fuel IH]; intros st Hfuel st'.
  - simpl. destruct (main st) eqn:Hm; try done;
      unfold steps_left in Hfuel; rewrite Hm in Hfuel; simpl in Hfuel; lia.
  - simpl. destruct (os_schedule sys (world st)) as [k w'].
    destruct (main st) eqn:Hm; [| | |done];
      (destruct (successors host (set_world w' st)) as [|s0 ss] eqn:Hs; [done|];
       apply IH;
       assert (pool_step host (set_world w' st)
                 (nth (k mod length (s0 :: ss)) (s0 :: ss) s0)) as Hstep
         by (apply successors_sound; rewrite Hs; apply nth_mod_elem_of);
       apply pool_step_decreases in Hstep;
       unfold steps_left in *; simpl in *; lia).
Qed.

End Run.

(** Where a run stops is a state the pool can come to. *)
Lemma run_reachable host fuel st : pool_reach host st (final_state (run host fuel st)).
Proof.
  eapply proj1, (run_preserves host (pool_reach host st)).
  - intros st1 st2 Hstep Hreach.
    apply (rtc_r _ st1); [exact Hreach|by apply PM_step].
  - intros w st1 Hreach.
    apply (rtc_r _ st1); [exact Hreach|apply PM_world].
  - constructor.
Qed.

Lemma pool_inv_reach start_port end_port num_threads host st st' :
  pool_reach host st st' ->
  pool_inv start_port end_port num_threads st ->
  pool_inv start_port end_port num_threads st'.
Proof.
  induction 1 as [|st1 st2 st3 Hmove _ IH]; [done|].
  intros Hinv. apply IH. destruct Hmove.
  - by eapply pool_step_inv.
  - by apply set_world_inv.
Qed.

(** ** The pool of port_scanner *)

Lemma elem_of_py_range start_port end_port p :
  p ∈ py_range start_port end_port <-> (start_port <= p <= end_port)%Z.
Proof. unfold py_range. rewrite elem_of_seqZ. lia. Qed.

Lemma NoDup_py_range start_port end_port : NoDup (py_range start_port end_port).
Proof. apply NoDup_seqZ. Qed.

Lemma py_range_empty start_port end_port :
  (end_port < start_port)%Z -> py_range start_port end_port = [].
Proof. intros. apply seqZ_nil. lia. Qed.

Lemma port_scanner_init_inv start_port end_port num_threads w :
  pool_inv start_port end_port num_threads
    (port_scanner_init sys start_port end_port num_threads w).
Proof.
  split; first [done | by exists [] | by intros ?%elem_of_nil].
Qed.






(** Where the calling thread has returned, the queues are empty and no
    worker holds a port. *)
Lemma pool_inv_returned start_port end_port num_threads st open_ports :
  pool_inv start_port end_port num_threads st ->
  main st = MReturned open_ports ->
  probed st ≡ₚ py_range start_port end_port /\
  open_ports ≡ₚ observed_open (probes st).
Proof.
  intros [H1 (taken & Hr & Ht) H3 H4 H5 _ _] Hm. rewrite Hm in *. simpl in *.
  assert (port_queue st = []) as Hq by (apply length_zero_iff_nil; lia).
  destruct (tasks_held_0 (threads st)) as [Hp Hu]; [lia|].
  rewrite Hp, Hq, !app_nil_r in *. rewrite H5, Hu, !app_nil_r in H3.
  subst. by split.
Qed.

Lemma pool_inv_probed start_port end_port num_threads st :
  pool_inv start_port end_port num_threads st ->
  NoDup (probed st) /\ probed st ⊆ py_range start_port end_port.
Proof.
  intros [_ (taken & Hr & Ht) _ _ _ _ _].
  pose proof (NoDup_py_range start_port end_port) as Hnd.
  rewrite Hr in Hnd. apply list.NoDup_app in Hnd as (Hnd & _ & _).
  rewrite Ht in Hnd. apply list.NoDup_app in Hnd as (Hnd & _ & _).
  split; [done|]. intros p Hp. rewrite Hr, elem_of_app, Ht, elem_of_app. auto.
Qed.



(** What a run of the pool of [port_scanner] ends in. *)
Lemma port_scanner_run_inv host start_port end_port num_threads w :
  pool_inv start_port end_port num_threads
    (final_state (port_scanner_run sys host start_port end_port num_threads w)) /\
  match port_scanner_run sys host start_port end_port num_threads w with
  | Returned open_ports st => main st = MReturned open_ports
  | Blocked st => successors host st = [] /\ is_returned (main st) = false
  | OutOfFuel _ => False
  end.
Proof.
  unfold port_scanner_run.
  set (st0 := port_scanner_init sys start_port end_port num_threads w).
  pose proof (run_preserves host (pool_inv start_port end_port num_threads)
                (pool_step_inv _ _ _ host) (set_world_inv _ _ _)
                (steps_left st0) st0
                (port_scanner_init_inv _ _ _ _)) as [Hinv Hres].
  split; [done|].
  destruct (run host (steps_left st0) st0) eqn:Hrun; try done.
  by eapply run_fuel.
Qed.


(** ** Scanning an empty range *)

Lemma pool_idle_step host st st' :
  pool_step host st st' -> pool_idle st -> pool_idle st'.
Proof.
  unfold pool_idle.
  destruct 1; simpl; rewrite ?Forall_app, ?list.Forall_cons, ?Forall_nil;
    intros (Hq & Hu & Ho & Hp & Hc & Hf); subst; try done;
    intuition (try discriminate; auto).
Qed.

Lemma pool_idle_progress host st :
  pool_idle st -> is_returned (main st) = false -> successors host st <> [].
Proof.
  intros (Hq & Hu & Ho & Hp & Hc & Hf) Hret.
  assert (exists st', step_main st = Some st') as [st' Hs].
  { unfold step_main. rewrite Hu, Ho.
    destruct (main st) as [[|k]| |a|a]; simpl in *; eauto; done. }
  apply (successors_enabled host st Main st'); [|done].
  apply elem_of_cons. by left.
Qed.

Lemma port_scanner_run_empty_range host start_port end_port num_threads w :
  (end_port < start_port)%Z ->
  exists st,
    port_scanner_run sys host start_port end_port num_threads w = Returned [] st
    /\ probes st = [].
Proof.
  intros Hlt. unfold port_scanner_run.
  set (st0 := port_scanner_init sys start_port end_port num_threads w).
  assert (pool_idle st0) as Hidle.
  { unfold pool_idle, st0, port_scanner_init. simpl.
    rewrite py_range_empty by done. repeat split; constructor. }
  pose proof (run_preserves host pool_idle (pool_idle_step host)
                (fun w st H => H) (steps_left st0) st0 Hidle) as [Hfin Hres].
  destruct (run host (steps_left st0) st0) as [a st|st|st] eqn:Hrun.
  - simpl in Hfin. destruct Hfin as (_ & _ & _ & Hp & Hc & _).
    rewrite Hres in Hc. simpl in Hc. subst a. eauto.
  - destruct Hres as [Hs Hr]. by destruct (pool_idle_progress host st Hfin Hr).
  - by destruct (run_fuel host (steps_left st0) st0 (le_n _) st).
Qed.

(** ** Scanning with no worker *)

(** Any integer typed at the prompt is returned, whatever its sign. *)
Lemma get_threads_count_returns_what_is_typed line rest n :
  py_strip line <> "" ->
  py_int (py_strip line) = Some n ->
  get_threads_count (line :: rest) = Some n.
Proof.
  intros Hne Hint. simpl. rewrite Hint.
  by destruct (String.eqb_spec (py_strip line) "").
Qed.

Lemma port_scanner_run_no_worker host start_port end_port num_threads w :
  (start_port <= end_port)%Z ->
  (num_threads <= 0)%Z ->
  exists st,
    port_scanner_run sys host start_port end_port num_threads w = Blocked st
    /\ main st = MJoin
    /\ port_queue st = py_range start_port end_port
    /\ threads st = []
    /\ probes st = [].
Proof.
  intros Hse Hn. unfold port_scanner_run, port_scanner_init.
  rewrite (Z2Nat.nonpos num_threads) by done.
  destruct (py_range start_port end_port) as [|p ps] eqn:Hr.
  { assert (start_port ∈ py_range start_port end_port) as Hin
      by (apply elem_of_py_range; lia).
    rewrite Hr in Hin. by apply elem_of_nil in Hin. }
  unfold steps_left. simpl.
  destruct (os_schedule sys w) as [k1 w1]. simpl.
  destruct (os_schedule sys w1) as [k2 w2].
  eexists. repeat split; done.
Qed.

End Pool.

(** ** Sequential code *)

Section Sequential.

Context {sys : System}.

Lemma is_host_online_eq host (e : env sys) :
  is_host_online sys host e
  = let argv := ping_argv (platform_system sys (env_world e)) host in
    let rw := subprocess_run sys argv (env_world e) in
    Returns
      (match rw.1 with Ok rc => (rc =? 0)%Z | Exc _ => false end)
      (Build_env rw.2 (env_trace e ++ [EvPing argv rw.1])).
Proof.
  unfold is_host_online, try_except, mbind, M_bind, platform_system_call,
    subprocess_run_call, call, ping_argv. simpl.
  destruct (String.eqb (platform_system sys (env_world e)) "Windows");
    destruct (subprocess_run sys _ (env_world e)) as [[rc|x] w']; reflexivity.
Qed.

Lemma get_host_info_eq host (e : env sys) :
  get_host_info sys host e
  = let rw := gethostbyaddr sys host (env_world e) in
    let e' := Build_env rw.2 (env_trace e ++ [EvResolve host rw.1]) in
    match rw.1 with
    | Ok r => Returns (r.1.1, r.1.2) e'
    | Exc x =>
        if is_herror_or_gaierror (exn_cls x)
        then Returns ("Unknown", []) e'
        else Raises x e'
    end.
Proof.
  unfold get_host_info, try_except, mbind, M_bind, call. simpl.
  destruct (gethostbyaddr sys host (env_world e)) as [[r|x] w']; simpl; [done|].
  by destruct (is_herror_or_gaierror (exn_cls x)).
Qed.

Lemma scan_from_file_body_eq start_port end_port num_threads host results
    (e : env sys) :
  scan_from_file_body sys start_port end_port num_threads host results e
  = match is_host_online sys host
            (log_event (EvPrint ("Scanning " ++ host ++ "...")) e) with
    | Returns online e2 =>
        match get_host_info sys host e2 with
        | Returns info e3 =>
            if online then
              match port_scanner sys host start_port end_port num_threads e3 with
              | Returns open_ports e4 =>
                  Returns (dict_set host
                             (make_record "Online" info.1 info.2 open_ports)
                             results) e4
              | Raises x e4 => Raises x e4
              | Hangs e4 => Hangs e4
              end
            else
              Returns (dict_set host (make_record "Offline" info.1 info.2 [])
                         results) e3
        | Raises x e3 => Raises x e3
        | Hangs e3 => Hangs e3
        end
    | Raises x e2 => Raises x e2
    | Hangs e2 => Hangs e2
    end.
Proof.
  unfold scan_from_file_body, mbind, M_bind, print. simpl.
  destruct (is_host_online sys host _) as [online e2|x e2|e2]; [|done|done].
  destruct (get_host_info sys host e2) as [info e3|x e3|e3]; [|done|done].
  destruct online; simpl; [|done].
  by destruct (port_scanner sys host start_port end_port num_threads e3).
Qed.

Lemma get_host_info_returns host (e : env sys) info e3 :
  get_host_info sys host e = Returns info e3 ->
  exists r2,
    env_trace e3 = env_trace e ++ [EvResolve host r2] /\
    info = match r2 with
           | Ok r => (r.1.1, r.1.2)
           | Exc _ => ("Unknown", [])
           end.
Proof.
  rewrite get_host_info_eq. simpl.
  destruct (gethostbyaddr sys host (env_world e)) as [[r|x] w']; simpl.
  - intros [= <- <-]. by exists (Ok r).
  - destruct (is_herror_or_gaierror (exn_cls x)); [|done].
    intros [= <- <-]. by exists (Exc x).
Qed.

Lemma port_scanner_returns_inv host start_port end_port num_threads
    (e : env sys) open_ports e4 :
  port_scanner sys host start_port end_port num_threads e = Returns open_ports e4 ->
  exists l,
    env_trace e4
    = env_trace e ++ EvPortScan host start_port end_port num_threads
                     :: probe_events host l /\
    l.*1 ≡ₚ py_range start_port end_port /\
    open_ports ≡ₚ observed_open l.
Proof.
  unfold port_scanner.
  pose proof (port_scanner_run_inv host start_port end_port num_threads
                (env_world e)) as [Hinv Hres].
  destruct (port_scanner_run sys host start_port end_port num_threads (env_world e))
    as [a st|st|st]; [|done|done].
  intros [= <- <-]. simpl in *. exists (probes st). split; [done|].
  by eapply pool_inv_returned.
Qed.

Lemma scan_from_file_body_returns start_port end_port num_threads host results
    (e : env sys) results' e' :
  scan_from_file_body sys start_port end_port num_threads host results e
  = Returns results' e' ->
  exists o,
    hs_host o = host /\
    host_scan_ok start_port end_port num_threads o /\
    results' = dict_set host (hs_record o) results /\
    env_trace e' = env_trace e ++ hs_events o.
Proof.
  rewrite scan_from_file_body_eq, is_host_online_eq. cbv zeta.
  set (system := platform_system sys _).
  destruct (subprocess_run sys (ping_argv system host) _) as [r1 w1]. simpl.
  set (online := match r1 with Ok rc => (rc =? 0)%Z | Exc _ => false end).
  assert (online = true <-> r1 = Ok 0%Z) as Honline.
  { unfold online. destruct r1 as [rc|x]; [|done].
    destruct (Z.eqb_spec rc 0) as [->|]; [done|]. split; [done|]. by intros [= ->]. }
  destruct (get_host_info sys host _) as [info e3|x e3|e3] eqn:Hinfo; [|done|done].
  apply get_host_info_returns in Hinfo as (r2 & Htr3 & Hi). simpl in Htr3.
  destruct online eqn:Hon.
  - destruct (port_scanner sys host start_port end_port num_threads e3)
      as [open_ports e4|x e4|e4] eqn:Hscan; [|done|done].
    apply port_scanner_returns_inv in Hscan as (l & Htr4 & Hl & Hopen).
    intros [= <- <-].
    exists {| hs_host := host; hs_online := true; hs_hostname := info.1;
              hs_alias := info.2; hs_open_ports := open_ports;
              hs_events :=
                [EvPrint ("Scanning " ++ host ++ "...");
                 EvPing (ping_argv system host) r1; EvResolve host r2]
                ++ EvPortScan host start_port end_port num_threads
                   :: probe_events host l |}.
    repeat split.
    + exists system, r1, r2. eexists. simpl. repeat split; try tauto.
      * by rewrite <- Hi; destruct info.
      * by exists l.
    + rewrite Htr4, Htr3. simpl. by rewrite <- !app_assoc.
  - intros [= <- <-].
    exists {| hs_host := host; hs_online := false; hs_hostname := info.1;
              hs_alias := info.2; hs_open_ports := [];
              hs_events :=
                [EvPrint ("Scanning " ++ host ++ "...");
                 EvPing (ping_argv system host) r1; EvResolve host r2] |}.
    repeat split.
    + exists system, r1, r2, []. simpl. repeat split; try tauto.
      by rewrite <- Hi; destruct info.
    + rewrite Htr3. simpl. by rewrite <- !app_assoc.
Qed.

Lemma for_each_body_returns start_port end_port num_threads hosts results
    (e : env sys) results' e' :
  for_each sys (scan_from_file_body sys start_port end_port num_threads)
    hosts results e = Returns results' e' ->
  exists scans,
    hs_host <$> scans = hosts /\
    Forall (host_scan_ok start_port end_port num_threads) scans /\
    results'
    = foldl (fun rep o => dict_set (hs_host o) (hs_record o) rep) results scans /\
    env_trace e' = env_trace e ++ concat (hs_events <$> scans).
Proof.
  revert results e. induction hosts as [|host hosts IH]; intros results e.
  - simpl. intros [= <- <-]. exists []. simpl. by rewrite app_nil_r.
  - simpl. unfold mbind, M_bind.
    destruct (scan_from_file_body sys _ _ _ host results e)
      as [results1 e1|x e1|e1] eqn:Hbody; [|done|done].
    apply scan_from_file_body_returns in Hbody as (o & Ho & Hok & Hr & Ht).
    intros (scans & Hhosts & Hoks & Hrs & Hts)%IH.
    exists (o :: scans). subst host hosts. simpl. repeat split.
    + by constructor.
    + by rewrite <- Hr.
    + by rewrite Hts, Ht, <- app_assoc.
Qed.

(** A run of [scan_from_file] that returns: one turn per host, in the
    order of the list, then the report written once. *)
Lemma scan_from_file_returns_inv host_list start_port end_port num_threads
    output_filename (e : env sys) e' :
  scan_from_file sys host_list start_port end_port num_threads output_filename e
  = Returns () e' ->
  exists scans r msg,
    hs_host <$> scans = host_list /\
    Forall (host_scan_ok start_port end_port num_threads) scans /\
    env_trace e'
    = env_trace e ++ concat (hs_events <$> scans)
      ++ [EvDump output_filename (report_of scans) r; EvPrint msg].
Proof.
  unfold scan_from_file, mbind, M_bind.
  destruct (for_each sys
              (scan_from_file_body sys start_port end_port num_threads)
              host_list [] e) as [results e1|x e1|e1] eqn:Hloop;
    [|done|done].
  apply for_each_body_returns in Hloop as (scans & Hhosts & Hok & Hres & Htr).
  fold (report_of scans) in Hres. subst results.
  unfold try_except, call, print, log_event. simpl.
  destruct (json_dump_file sys output_filename (report_of scans) (env_world e1))
    as [[[]|x] w2]; simpl.
  - intros [= <-]. exists scans, (Ok ()). eexists. simpl.
    repeat split; [done..|]. by rewrite Htr, <- !app_assoc.
  - destruct (is_OSError (exn_cls x)); [|done].
    intros [= <-]. exists scans, (Exc x). eexists. simpl.
    repeat split; [done..|]. by rewrite Htr, <- !app_assoc.
Qed.

(** *** When the calls return *)

Lemma get_host_info_total host (e : env sys) :
  resolver_errors_are_lookup_errors sys ->
  exists info e', get_host_info sys host e = Returns info e'.
Proof.
  intros Hres. rewrite get_host_info_eq. simpl.
  specialize (Hres host (env_world e)).
  destruct (gethostbyaddr sys host (env_world e)) as [[r|x] w']; simpl in *;
    [eauto|].
  rewrite (Hres x eq_refl). eauto.
Qed.





End Sequential.

(** ** Dictionaries and the report *)

Section Dict.

Context {V : Type}.
Implicit Types (d : dict V) (k : string) (v : V).

Lemma dict_keys_set_in k v d :
  k ∈ dict_keys d -> dict_keys (dict_set k v d) = dict_keys d.
Proof.
  unfold dict_keys. induction d as [|[k' v'] d IH]; simpl.
  - by intros ?%elem_of_nil.
  - intros Hin. destruct (String.eqb_spec k' k) as [->|Hne]; [done|].
    simpl. f_equal. apply IH. apply elem_of_cons in Hin as [->|]; done.
Qed.

Lemma dict_set_fresh k v d :
  k ∉ dict_keys d -> dict_set k v d = d ++ [(k, v)].
Proof.
  unfold dict_keys. induction d as [|[k' v'] d IH]; simpl; [done|].
  intros Hin. destruct (String.eqb_spec k' k) as [->|Hne].
  - destruct Hin. apply elem_of_cons. by left.
  - f_equal. apply IH. intros ?. apply Hin, elem_of_cons. by right.
Qed.

Lemma dict_get_set_eq k v d : dict_get k (dict_set k v d) = Some v.
Proof.
  induction d as [|[k' v'] d IH]; simpl.
  - by rewrite String.eqb_refl.
  - destruct (String.eqb_spec k' k) as [->|Hne]; simpl.
    + by rewrite String.eqb_refl.
    + by destruct (String.eqb_spec k' k).
Qed.

Lemma dict_get_set_ne k k' v d :
  k <> k' -> dict_get k' (dict_set k v d) = dict_get k' d.
Proof.
  intros Hne. induction d as [|[k1 v1] d IH]; simpl.
  - by destruct (String.eqb_spec k k').
  - destruct (String.eqb_spec k1 k) as [->|Hne1]; simpl.
    + by destruct (String.eqb_spec k k').
    + by rewrite IH.
Qed.


Lemma NoDup_dict_keys_set k v d :
  NoDup (dict_keys d) -> NoDup (dict_keys (dict_set k v d)).
Proof.
  intros Hnd. destruct (decide (k ∈ dict_keys d)) as [Hin|Hin].
  - by rewrite dict_keys_set_in.
  - rewrite dict_set_fresh by done. unfold dict_keys in *.
    rewrite fmap_app. simpl. apply list.NoDup_app. repeat split; [done| |].
    + intros k' Hk' ->%list_elem_of_singleton. done.
    + apply NoDup_singleton.
Qed.

Lemma dict_get_elem k v d :
  NoDup (dict_keys d) -> (k, v) ∈ d <-> dict_get k d = Some v.
Proof.
  unfold dict_keys. induction d as [|[k' v'] d IH]; simpl.
  - intros _. split; [by intros ?%elem_of_nil|done].
  - intros [Hk Hnd]%NoDup_cons. rewrite elem_of_cons, (IH Hnd).
    destruct (String.eqb_spec k' k) as [->|Hne].
    + split.
      * intros [[= ->]|Hget]; [done|]. destruct Hk.
        apply IH in Hget; [|done]. apply list_elem_of_fmap. by exists (k, v).
      * intros [= ->]. by left.
    + split; [|by right]. intros [[= -> ->]|]; done.
Qed.

End Dict.

Section Report.

Implicit Types (o : host_scan) (scans : list host_scan).

Lemma report_of_snoc scans o :
  report_of (scans ++ [o]) = dict_set (hs_host o) (hs_record o) (report_of scans).
Proof. unfold report_of. by rewrite foldl_snoc. Qed.

(** One entry per host string. *)
Lemma report_keys_NoDup scans : NoDup (dict_keys (report_of scans)).
Proof.
  induction scans as [|o scans IH] using rev_ind; [constructor|].
  rewrite report_of_snoc. by apply NoDup_dict_keys_set.
Qed.




(** The entry of a host is the one of its last turn. *)
Lemma report_get_last scans h :
  dict_get h (report_of scans)
  = hs_record <$> last (filter (fun o => hs_host o = h) scans).
Proof.
  induction scans as [|o scans IH] using rev_ind; [done|].
  rewrite report_of_snoc, filter_app.
  destruct (decide (hs_host o = h)) as [<-|Hne].
  - rewrite dict_get_set_eq, filter_cons_True, filter_nil, last_snoc by done.
    done.
  - rewrite dict_get_set_ne, filter_cons_False, filter_nil, app_nil_r by done.
    done.
Qed.

Lemma report_records scans h rec :
  (h, rec) ∈ report_of scans ->
  exists o, o ∈ scans /\ hs_host o = h /\ rec = hs_record o.
Proof.
  intros Hin. apply dict_get_elem in Hin; [|apply report_keys_NoDup].
  rewrite report_get_last in Hin.
  destruct (last (filter (fun o => hs_host o = h) scans)) as [o|] eqn:Hlast;
    [|done].
  injection Hin as <-. apply last_Some_elem_of, list_elem_of_filter in Hlast.
  exists o. by destruct Hlast.
Qed.




End Report.

(** * The worker pool *)

Section PoolResults.

Context {sys : System}.

Lemma pool_step_probes_sound host (st st' : pool sys) :
  pool_step host st st' -> probes_sound host st -> probes_sound host st'.
Proof.
  unfold probes_sound.
  destruct 1; simpl; try done; rewrite Forall_app, Forall_singleton;
    intros Hs; (split; [done|]); exists w; simpl; by rewrite H.
Qed.

Lemma port_scanner_run_probes_sound host start_port end_port num_threads w :
  probes_sound host
    (final_state (port_scanner_run sys host start_port end_port num_threads w)).
Proof.
  unfold port_scanner_run.
  apply (run_preserves host (probes_sound host)
           (pool_step_probes_sound host) (fun w st H => H)).
  constructor.
Qed.



(** The two steps of a worker between taking a port and [task_done] are
    [scan_port]. *)
Lemma worker_scan_port_spec host i (st : pool sys) p :
  threads st !! i = Some (WProbe p) ->
  let out := scan_port sys host p (output_queue st) (world st) in
  exists st',
    worker_scan_port host i st = Some st' /\
    output_queue st' = po_output_queue out /\
    world st' = po_world out /\
    probes st' = probes st ++ [(p, (connect_ex sys host p (world st)).1)] /\
    threads st' !! i
    = Some (match po_raised out with
            | None => WTaskDone
            | Some x => WCrashed x
            end).
Proof.
  intros Hi. pose proof (lookup_lt_Some _ _ _ Hi) as Hlen.
  unfold worker_scan_port, step_worker, scan_port. rewrite Hi.
  destruct (connect_ex sys host p (world st)) as [[rc|x] w'] eqn:Hc; simpl.
  - destruct (rc =? 0)%Z eqn:Hrc; simpl;
      rewrite list_lookup_insert_eq by done; simpl.
    + eexists. repeat split; simpl.
      by rewrite list_lookup_insert_eq by (by rewrite length_insert).
    + eexists. repeat split; simpl. by rewrite list_lookup_insert_eq.
  - rewrite list_lookup_insert_eq by done. eexists. repeat split; simpl.
    by rewrite list_lookup_insert_eq.
Qed.

(** C4: [scan_port] does not raise when the connection fails for a
    network reason (refused, timed out, unreachable, reset): [connect_ex]
    then returns a non-zero error code, the port is not put in the output
    queue, and the probe returns normally.  When the connection is
    established (code 0) the port is put in the queue.  In both cases
    the socket is closed when [scan_port] returns. *)
Theorem scan_port_connect_failure_is_closed_port host port output_queue
    (w : World sys) rc w' :
  connect_ex sys host port w = (Ok rc, w') ->
  let out := scan_port sys host port output_queue w in
  po_raised out = None /\
  (rc <> 0%Z -> po_output_queue out = output_queue) /\
  (rc = 0%Z -> po_output_queue out = output_queue ++ [port]) /\
  sock_closed (po_socket out) = true /\
  sock_connected (po_socket out) = false /\
  sock_timeout_ms (po_socket out) = Some 500%Z.
Proof.
  intros Hc. unfold scan_port. rewrite Hc.
  destruct (Z.eqb_spec rc 0) as [->|Hrc]; simpl; repeat split; done.
Qed.

(** The socket is closed on every path out of [scan_port], also when
    [connect_ex] raises. *)
Lemma scan_port_closes_socket host port output_queue (w : World sys) :
  sock_closed (po_socket (scan_port sys host port output_queue w)) = true.
Proof.
  unfold scan_port. destruct (connect_ex sys host port w) as [[rc|x] w'].
  - by destruct (rc =? 0)%Z.
  - done.
Qed.



(** C9: on an empty range ([end_port < start_port]) [port_scanner] makes
    no probe and returns the empty list, whatever the number of threads
    and the schedule: it does not block. *)
Theorem port_scanner_empty_range_returns_nothing host start_port end_port
    num_threads (e : env sys) :
  (end_port < start_port)%Z ->
  (exists st,
     port_scanner_run sys host start_port end_port num_threads (env_world e)
     = Returned [] st /\ probes st = []) /\
  exists e',
    port_scanner sys host start_port end_port num_threads e = Returns [] e' /\
    env_trace e'
    = env_trace e ++ [EvPortScan host start_port end_port num_threads].
Proof.
  intros Hlt.
  destruct (port_scanner_run_empty_range host start_port end_port num_threads
              (env_world e) Hlt) as (st & Hrun & Hp).
  split; [by eauto|].
  unfold port_scanner. rewrite Hrun, Hp. eauto.
Qed.

(** C1: a thread count of 0 or below is not rejected.
    [get_threads_count] returns it as typed, and [port_scanner] called
    with it on a range that has ports starts no worker, makes no probe
    and stays blocked in [port_queue.join()] with every port still
    queued: the call never returns and nothing is reported. *)
Theorem nonpositive_thread_count_blocks_forever host (e : env sys) :
  get_threads_count ["0"] = Some 0%Z /\
  get_threads_count ["-3"] = Some (-3)%Z /\
  (exists st,
     port_scanner_run sys host 1 5 0 (env_world e) = Blocked st /\
     main st = MJoin /\
     port_queue st = [1; 2; 3; 4; 5]%Z /\
     threads st = [] /\
     probes st = []) /\
  exists e', port_scanner sys host 1 5 0 e = Hangs e'.
Proof.
  split; [by apply get_threads_count_returns_what_is_typed|].
  split; [by apply get_threads_count_returns_what_is_typed|].
  destruct (port_scanner_run_no_worker host 1 5 0 (env_world e))
    as (st & Hrun & Hm & Hq & Ht & Hp); [lia..|].
  split.
  - exists st. by repeat split.
  - unfold port_scanner. rewrite Hrun. eauto.
Qed.

End PoolResults.

(** * Liveness, names and the batch *)

Section BatchResults.

Context {sys : System}.

(** C7: [is_host_online] always returns, never raises; it returns
    [True] exactly when the one ping it runs ends with exit code 0, and
    [False] when the ping ends with another code or [subprocess.run]
    raises. *)
Theorem is_host_online_iff_ping_exit_code_zero host (e : env sys) :
  let argv := ping_argv (platform_system sys (env_world e)) host in
  let r := (subprocess_run sys argv (env_world e)).1 in
  exists online e',
    is_host_online sys host e = Returns online e' /\
    (online = true <-> r = Ok 0%Z) /\
    env_trace e' = env_trace e ++ [EvPing argv r].
Proof.
  cbv zeta. rewrite is_host_online_eq. cbv zeta.
  eexists _, _. split; [done|]. split; [|done].
  destruct (subprocess_run sys _ (env_world e)) as [[rc|x] w']; simpl; [|done].
  destruct (Z.eqb_spec rc 0) as [->|Hrc]; [done|].
  split; [done|]. by intros [= ->].
Qed.

(** What [get_host_info] does with each answer of the resolver: the
    resolved hostname and alias list when the lookup succeeds,
    [("Unknown", [])] when the resolver raises [socket.herror] or
    [socket.gaierror], and the exception itself when it is of another
    class. *)
Theorem get_host_info_sentinel_on_lookup_error host (e : env sys) r w' :
  gethostbyaddr sys host (env_world e) = (r, w') ->
  let e' := Build_env w' (env_trace e ++ [EvResolve host r]) in
  get_host_info sys host e
  = match r with
    | Ok (hostname, alias, _) => Returns (hostname, alias) e'
    | Exc x =>
        if is_herror_or_gaierror (exn_cls x)
        then Returns ("Unknown", []) e'
        else Raises x e'
    end.
Proof.
  intros Hr. rewrite get_host_info_eq, Hr. simpl.
  by destruct r as [[[hostname alias] ips]|x].
Qed.

(** What a turn of the loop does: a line printed and the ping, then the
    resolver, then the port scan when the ping succeeded. *)
Lemma scan_from_file_body_turn start_port end_port num_threads host
    results (e : env sys) online e2 :
  is_host_online sys host (log_event (EvPrint ("Scanning " ++ host ++ "...")) e)
  = Returns online e2 ->
  let o := scan_from_file_body sys start_port end_port num_threads host results e in
  exists argv r1 r2 evs,
    env_trace e2
    = env_trace e ++ [EvPrint ("Scanning " ++ host ++ "..."); EvPing argv r1] /\
    env_trace (outcome_env o) = env_trace e2 ++ EvResolve host r2 :: evs /\
    (online = false ->
       evs = [] /\
       forall results' e',
         o = Returns results' e' ->
         exists hostname alias,
           results' = dict_set host (make_record "Offline" hostname alias []) results) /\
    (online = true ->
       (exists x, r2 = Exc x /\ is_herror_or_gaierror (exn_cls x) = false /\ evs = []) \/
       exists l,
         evs = EvPortScan host start_port end_port num_threads
               :: probe_events host l).
Proof.
  intros Hon. cbv zeta. rewrite scan_from_file_body_eq, Hon.
  rewrite is_host_online_eq in Hon. cbv zeta in Hon. injection Hon as _ <-.
  rewrite get_host_info_eq. cbv zeta. cbn [env_world env_trace log_event].
  set (argv := ping_argv _ host).
  destruct (subprocess_run sys argv (env_world e)) as [r1 w1]. cbn [fst snd].
  destruct (gethostbyaddr sys host w1) as [r2 w2]. cbn [fst snd].
  exists argv, r1, r2.
  assert (forall evs P,
            P evs ->
            exists evs0,
              (env_trace e ++ [EvPrint ("Scanning " ++ host ++ "...")])
              ++ [EvPing argv r1]
              = env_trace e
                ++ [EvPrint ("Scanning " ++ host ++ "..."); EvPing argv r1] /\
              (((env_trace e ++ [EvPrint ("Scanning " ++ host ++ "...")])
                ++ [EvPing argv r1]) ++ [EvResolve host r2]) ++ evs
              = ((env_trace e ++ [EvPrint ("Scanning " ++ host ++ "...")])
                 ++ [EvPing argv r1]) ++ EvResolve host r2 :: evs0 /\
              P evs0) as Hshape.
  { intros evs P HP. exists evs. by rewrite <- !app_assoc. }
  destruct r2 as [r|x]; [|destruct (is_herror_or_gaierror (exn_cls x)) eqn:Hx].
  - destruct online.
    + unfold port_scanner. cbn [env_world env_trace].
      destruct (port_scanner_run sys host start_port end_port num_threads w2)
        as [a st|st|st]; cbn [outcome_env env_trace];
        apply Hshape; (split; [done|]); intros _; right; by eexists.
    + cbn [outcome_env env_trace].
      rewrite <- (app_nil_r (_ ++ [EvResolve host (Ok r)])).
      apply Hshape. split; [|done].
      intros _. split; [done|]. intros results' e' [= <- <-]. by eexists _, _.
  - destruct online.
    + unfold port_scanner. cbn [env_world env_trace].
      destruct (port_scanner_run sys host start_port end_port num_threads w2)
        as [a st|st|st]; cbn [outcome_env env_trace];
        apply Hshape; (split; [done|]); intros _; right; by eexists.
    + cbn [outcome_env env_trace].
      rewrite <- (app_nil_r (_ ++ [EvResolve host (Exc x)])).
      apply Hshape. split; [|done].
      intros _. split; [done|]. intros results' e' [= <- <-]. by eexists _, _.
  - cbn [outcome_env env_trace].
    rewrite <- (app_nil_r (_ ++ [EvResolve host (Exc x)])).
    apply Hshape. split.
    + intros _. split; [done|]. intros results' e'. by destruct online.
    + intros _. left. by exists x.
Qed.

(** C6: for a host the ping finds offline, the turn of the loop makes
    no port scan: after the ping it calls the resolver and nothing
    else, so no event of the turn is a call of [port_scanner] or a
    probe; the record it stores has the state "Offline" and no open
    port; and the record is stored whenever the resolver fails with
    lookup errors only. *)
Theorem offline_host_is_not_port_scanned start_port end_port num_threads host
    results (e : env sys) e2 :
  is_host_online sys host (log_event (EvPrint ("Scanning " ++ host ++ "...")) e)
  = Returns false e2 ->
  let o := scan_from_file_body sys start_port end_port num_threads host results e in
  (exists r2, env_trace (outcome_env o) = env_trace e2 ++ [EvResolve host r2]) /\
  (exists evs,
     env_trace (outcome_env o) = env_trace e ++ evs /\
     Forall (fun ev => is_scan_event ev = false) evs) /\
  (forall results' e',
     o = Returns results' e' ->
     exists hostname alias,
       results' = dict_set host (make_record "Offline" hostname alias []) results /\
       dict_get host results' = Some (make_record "Offline" hostname alias [])) /\
  (resolver_errors_are_lookup_errors sys -> exists results' e', o = Returns results' e').
Proof.
  intros Hon. cbv zeta.
  destruct (scan_from_file_body_turn start_port end_port num_threads host
              results e false e2 Hon)
    as (argv & r1 & r2 & evs & Htr2 & Htr & Hoff & _).
  destruct (Hoff eq_refl) as [-> Hrec].
  split; [by exists r2|]. split; [|split].
  - eexists. rewrite Htr, Htr2, <- app_assoc. split; [reflexivity|].
    by repeat constructor.
  - intros results' e' (hostname & alias & ->)%Hrec.
    exists hostname, alias. split; [done|]. apply dict_get_set_eq.
  - intros Hres. rewrite scan_from_file_body_eq, Hon.
    destruct (get_host_info_total host e2 Hres) as (info & e3 & ->). eauto.
Qed.





End BatchResults.

(** * The program on the small system *)




(** Two hosts, the first online with port 80 open, the second offline. *)
Example scan_two_hosts :
  exists e',
    scan_from_file demo_sys ["10.0.0.1"; "10.0.0.2"] 79 81 2 "out.json" demo_env
    = Returns () e' /\
    last (env_trace e')
    = Some (EvPrint "Scan results saved to out.json") /\
    EvDump "out.json"
      [("10.0.0.1", make_record "Online" "gateway.lan" ["gw"] [80%Z]);
       ("10.0.0.2", make_record "Offline" "Unknown" [] [])]
      (Ok ()) ∈ env_trace e'.
Proof.
  eexists. split; [vm_compute; reflexivity|]. split; [reflexivity|].
  vm_compute. repeat (first [apply list_elem_of_here | apply list_elem_of_further]).
Qed.

(** No host: the empty report is still written, once. *)
Example scan_no_host :
  scan_from_file demo_sys [] 1 5 2 "out.json" demo_env
  = Returns ()
      (Build_env (sys := demo_sys) 1
         [EvDump "out.json" [] (Ok ()); EvPrint "Scan results saved to out.json"]).
Proof. reflexivity. Qed.

(** A host that comes up during the batch and is listed twice: its
    entry stays where the first turn put it and holds the second scan. *)
Example scan_repeated_host :
  exists e',
    scan_from_file demo_sys ["10.0.0.3"; "10.0.0.2"; "10.0.0.3"] 79 81 2 "out.json"
      demo_env = Returns () e' /\
    EvDump "out.json"
      [("10.0.0.3", make_record "Online" "Unknown" [] [80%Z]);
       ("10.0.0.2", make_record "Offline" "Unknown" [] [])]
      (Ok ()) ∈ env_trace e'.
Proof.
  eexists. split; [vm_compute; reflexivity|].
  vm_compute. repeat (first [apply list_elem_of_here | apply list_elem_of_further]).
Qed.

(** The resolver of [idna_sys] raises a [UnicodeError] on "a..b" and
    [get_host_info] lets it through. *)
Example get_host_info_unicode_error :
  get_host_info idna_sys "a..b" (Build_env (sys := idna_sys) 0 [])
  = Raises idna_error
      (Build_env (sys := idna_sys) 1 [EvResolve "a..b" (Exc idna_error)]).
Proof. reflexivity. Qed.

(** C5: [get_host_info] does not return [("Unknown", [])] on every
    failed lookup.  Its handler names [socket.herror] and
    [socket.gaierror] only, so a failure of the resolver of any other
    class leaves [get_host_info]: for the name "a..b", which the
    resolver refuses with a [UnicodeError] before any lookup, the call
    raises instead of returning the sentinel, and the batch that
    called it ends there, with no report written. *)
Theorem get_host_info_raises_on_malformed_name :
  get_host_info idna_sys "a..b" (Build_env (sys := idna_sys) 0 [])
  = Raises idna_error
      (Build_env (sys := idna_sys) 1 [EvResolve "a..b" (Exc idna_error)]) /\
  (forall (sys : System) (host : string) (e : env sys) x w',
     gethostbyaddr sys host (env_world e) = (Exc x, w') ->
     is_herror_or_gaierror (exn_cls x) = false ->
     get_host_info sys host e
     = Raises x (Build_env w' (env_trace e ++ [EvResolve host (Exc x)]))) /\
  exists e',
    scan_from_file idna_sys ["10.0.0.1"; "a..b"; "10.0.0.2"] 79 81 2 "out.json"
      (Build_env (sys := idna_sys) 0 [])
    = Raises idna_error e' /\
    Forall (fun ev => is_dump ev = false) (env_trace e').
Proof.
  split; [reflexivity|]. split.
  - intros sys host e x w' Hr Hcls. rewrite get_host_info_eq, Hr. simpl.
    by rewrite Hcls.
  - eexists. split; [vm_compute; reflexivity|]. by repeat constructor.
Qed.

(** The sentence "returns the sentinel on any resolution failure of any
    kind" is not true of the code. *)
Lemma get_host_info_lets_other_exceptions_through :
  ~ (forall (sys : System) (host : string) (e : env sys) (x : exn),
       (gethostbyaddr sys host (env_world e)).1 = Exc x ->
       exists e', get_host_info sys host e = Returns ("Unknown", []) e').
Proof.
  intros Hclaim.
  destruct (Hclaim idna_sys "a..b" (Build_env (sys := idna_sys) 0 []) idna_error
              eq_refl) as [e' He'].
  rewrite get_host_info_unicode_error in He'. discriminate He'.
Qed.



Lemma scan_port_connect_failure_is_closed_port_witness :
  connect_ex demo_sys "10.0.0.1" 81 0 = (Ok 111%Z, 1) /\
  po_raised (scan_port demo_sys "10.0.0.1" 81 [22%Z] 0) = None /\
  po_output_queue (scan_port demo_sys "10.0.0.1" 81 [22%Z] 0) = [22%Z].
Proof.
  split; [reflexivity|].
  destruct (scan_port_connect_failure_is_closed_port (sys := demo_sys)
              "10.0.0.1" 81%Z [22%Z] 0 111%Z 1 eq_refl) as (Hraised & Hclosed & _).
  split; [exact Hraised|]. apply Hclosed. lia.
Defined.

Lemma get_host_info_sentinel_on_lookup_error_witness :
  get_host_info demo_sys "10.0.0.2" demo_env
  = Returns ("Unknown", [])
      (Build_env (sys := demo_sys) 1
         [EvResolve "10.0.0.2" (Exc (Exn SocketHerror "Unknown host"))]).
Proof.
  exact (get_host_info_sentinel_on_lookup_error (sys := demo_sys) "10.0.0.2"
           demo_env (Exc (Exn SocketHerror "Unknown host")) 1 eq_refl).
Defined.

Lemma offline_host_is_not_port_scanned_witness :
  exists hostname alias,
    scan_from_file_body demo_sys 20 23 2 "10.0.0.2" [] demo_env
    = Returns [("10.0.0.2", make_record "Offline" hostname alias [])]
        (Build_env (sys := demo_sys) 2
           [EvPrint "Scanning 10.0.0.2...";
            EvPing ["ping"; "-c"; "1"; "10.0.0.2"] (Ok 1%Z);
            EvResolve "10.0.0.2" (Exc (Exn SocketHerror "Unknown host"))]).
Proof.
  destruct (offline_host_is_not_port_scanned (sys := demo_sys) 20 23 2
              "10.0.0.2" [] demo_env
              (Build_env (sys := demo_sys) 1
                 [EvPrint "Scanning 10.0.0.2...";
                  EvPing ["ping"; "-c"; "1"; "10.0.0.2"] (Ok 1%Z)])
              eq_refl) as (_ & _ & Hrec & _).
  destruct (Hrec _ _ eq_refl) as (hostname & alias & Hr & _).
  exists hostname, alias. vm_compute in Hr. vm_compute.
  injection Hr as <- <-. reflexivity.
Defined.


Lemma port_scanner_empty_range_returns_nothing_witness :
  exists e',
    port_scanner demo_sys "10.0.0.1" 23 20 3 demo_env = Returns [] e' /\
    env_trace e' = env_trace demo_env ++ [EvPortScan "10.0.0.1" 23 20 3].
Proof.
  apply (port_scanner_empty_range_returns_nothing (sys := demo_sys)
           "10.0.0.1" 23 20 3 demo_env).
  lia.
Defined.


(** * More on the worker pool *)

Section PoolMore.

Context {sys : System}.
Implicit Types (st : pool sys) (ws : wstate) (l : list wstate).

(** X1: whatever the schedule, the pool never has more worker threads
    than [num_threads], so never more than [num_threads] probes under
    way; with [num_threads <= 0] it has no worker at all. *)
Theorem pool_never_exceeds_num_threads host start_port end_port num_threads
    (w : World sys) st :
  pool_reach host (port_scanner_init sys start_port end_port num_threads w) st ->
  length (threads st) <= Z.to_nat num_threads /\
  probes_in_flight st <= Z.to_nat num_threads /\
  ((num_threads <= 0)%Z -> threads st = []).
Proof.
  intros Hreach.
  pose proof (pool_inv_reach start_port end_port num_threads host _ _ Hreach
                (port_scanner_init_inv _ _ _ _)) as [_ _ _ _ _ Hth _].
  assert (length (threads st) <= Z.to_nat num_threads) as Hlen by lia.
  split; [done|]. split.
  - unfold probes_in_flight.
    pose proof (length_filter (fun ws => in_scan_port ws = true) (threads st)).
    lia.
  - intros Hn. apply length_zero_iff_nil. lia.
Qed.

Lemma tasks_held_0_at_rest l :
  tasks_held l = 0 -> Forall (fun ws => at_rest ws = true) l.
Proof.
  induction l as [|ws l IH]; [constructor|].
  rewrite tasks_held_cons. intros H. constructor; [|apply IH; lia].
  destruct ws; simpl in *; done || lia.
Qed.

Lemma at_rest_not_in_scan_port l :
  Forall (fun ws => at_rest ws = true) l ->
  filter (fun ws => in_scan_port ws = true) l = [].
Proof.
  induction 1 as [|ws l Hws _ IH]; [done|].
  rewrite filter_cons_False; [done|]. destruct ws; simpl in *; done.
Qed.

(** X2: [port_queue.join()] is a barrier.  When [port_scanner] returns,
    both queues are empty, every one of the [num_threads] workers has
    been started and none is inside [scan_port] or holds a port. *)
Theorem port_scanner_returns_after_all_work host start_port end_port
    num_threads (w : World sys) open_ports st :
  port_scanner_run sys host start_port end_port num_threads w
  = Returned open_ports st ->
  port_queue st = [] /\
  unfinished_tasks st = 0 /\
  output_queue st = [] /\
  length (threads st) = Z.to_nat num_threads /\
  Forall (fun ws => at_rest ws = true) (threads st) /\
  probes_in_flight st = 0.
Proof.
  intros Hrun.
  pose proof (port_scanner_run_inv host start_port end_port num_threads w)
    as [Hinv Hres].
  rewrite Hrun in Hinv, Hres. simpl in *.
  destruct Hinv as [H1 _ _ H4 H5 H6 _]. rewrite Hres in *. simpl in *.
  assert (port_queue st = []) as Hq by (apply length_zero_iff_nil; lia).
  assert (Forall (fun ws => at_rest ws = true) (threads st)) as Hrest
    by (apply tasks_held_0_at_rest; lia).
  repeat split; try done; try lia.
  unfold probes_in_flight. by rewrite at_rest_not_in_scan_port.
Qed.

(** *** Probes that raise *)

Lemma crashed_count_app l1 l2 :
  crashed_count (l1 ++ l2) = crashed_count l1 + crashed_count l2.
Proof. apply sum_list_with_app. Qed.

Lemma raised_count_app (l1 l2 : list (Z * result Z)) :
  raised_count (l1 ++ l2) = raised_count l1 + raised_count l2.
Proof. apply sum_list_with_app. Qed.

Lemma crashed_count_le_tasks_held l : crashed_count l <= tasks_held l.
Proof.
  induction l as [|ws l IH]; [done|].
  rewrite tasks_held_cons. unfold crashed_count in *. simpl.
  destruct ws; simpl; lia.
Qed.

Lemma raised_count_0 (l : list (Z * result Z)) :
  raised_count l = 0 -> Forall (fun pr => is_Ok pr.2 = true) l.
Proof.
  induction l as [|pr l IH]; [constructor|].
  unfold raised_count in *. simpl. destruct (is_Ok pr.2) eqn:Hok; [|lia].
  intros H. constructor; [done|]. by apply IH.
Qed.

(** A worker is lost for every probe that raised. *)
Lemma pool_step_raised host st st' :
  pool_step host st st' ->
  raised_count (probes st) <= crashed_count (threads st) ->
  raised_count (probes st') <= crashed_count (threads st').
Proof.
  destruct 1; simpl; rewrite ?crashed_count_app, ?raised_count_app;
    unfold crashed_count, raised_count; simpl; lia.
Qed.

(** X3: a probe that raises takes its worker down before [task_done],
    so [join] never comes back: [port_scanner] returns only from runs in
    which every [connect_ex] gave a return code, and a run in which some
    probe raised ends blocked. *)
Theorem port_scanner_blocks_when_a_probe_raises host start_port end_port
    num_threads (w : World sys) :
  let r := port_scanner_run sys host start_port end_port num_threads w in
  (forall open_ports st,
     r = Returned open_ports st ->
     Forall (fun pr => exists rc, pr.2 = Ok rc) (probes st)) /\
  (forall p x,
     (p, Exc x) ∈ probes (final_state r) -> exists st, r = Blocked st).
Proof.
  cbv zeta.
  pose proof (port_scanner_run_inv host start_port end_port num_threads w)
    as [Hinv Hres].
  assert (raised_count
            (probes (final_state
               (port_scanner_run sys host start_port end_port num_threads w)))
          <= crashed_count
               (threads (final_state
                  (port_scanner_run sys host start_port end_port num_threads w))))
    as Hraised.
  { unfold port_scanner_run.
    eapply proj1, (run_preserves host
             (fun st => raised_count (probes st) <= crashed_count (threads st))).
    - apply pool_step_raised.
    - done.
    - done. }
  assert (forall open_ports st,
            port_scanner_run sys host start_port end_port num_threads w
            = Returned open_ports st ->
            Forall (fun pr => is_Ok pr.2 = true) (probes st)) as Hret.
  { intros open_ports st Hrun. rewrite Hrun in Hinv, Hres, Hraised. simpl in *.
    destruct Hinv as [H1 _ _ H4 _ _ _]. rewrite Hres in H4. simpl in H4.
    pose proof (crashed_count_le_tasks_held (threads st)).
    apply raised_count_0. lia. }
  split.
  - intros open_ports st Hrun. eapply Forall_impl; [by eapply Hret|].
    intros [p [rc|x]] Hok; simpl in *; [by exists rc|done].
  - intros p x Hin.
    destruct (port_scanner_run sys host start_port end_port num_threads w)
      as [a st|st|st] eqn:Hrun; [|by eauto|done].
    exfalso. specialize (Hret a st eq_refl). simpl in Hin.
    rewrite Forall_forall in Hret. by specialize (Hret _ Hin).
Qed.

(** *** A network that does not change *)

Lemma observed_open_static (answer : Z -> result Z) (l : list (Z * result Z)) :
  Forall (fun pr => pr.2 = answer pr.1) l ->
  observed_open l = filter (fun p => answers_zero (answer p) = true) l.*1.
Proof.
  induction 1 as [|[p r] l Hpr _ IH]; [done|]. simpl in Hpr. subst r.
  unfold observed_open in *. rewrite fmap_cons, filter_cons, <- IH.
  change (omap answered_open ((p, answer p) :: l))
    with (match answered_open (p, answer p) with
          | Some y => y :: omap answered_open l
          | None => omap answered_open l
          end).
  unfold answered_open, answers_zero. simpl.
  destruct (answer p) as [rc|x]; [destruct (rc =? 0)%Z|];
    simpl; repeat case_decide; done.
Qed.

Lemma observed_open_sublist (l : list (Z * result Z)) :
  observed_open l `sublist_of` l.*1.
Proof.
  induction l as [|pr l IH]; [done|].
  unfold observed_open in *. rewrite fmap_cons.
  change (omap answered_open (pr :: l))
    with (match answered_open pr with
          | Some y => y :: omap answered_open l
          | None => omap answered_open l
          end).
  destruct (answered_open pr) as [p|] eqn:Ha.
  - assert (p = pr.1) as ->.
    { unfold answered_open in Ha. destruct (pr.2) as [rc|]; [|done].
      destruct (rc =? 0)%Z; congruence. }
    by apply sublist_skip.
  - by apply sublist_cons.
Qed.

(** X4: on a network that does not change, the ports returned do not
    depend on the schedule or on the number of workers: every returning
    call gives the ports of the range for which [connect_ex] answers 0,
    so two calls give the same ports. *)
Theorem port_scanner_result_on_static_network host start_port end_port
    num_threads (w : World sys) answer open_ports st :
  static_network sys host answer ->
  port_scanner_run sys host start_port end_port num_threads w
  = Returned open_ports st ->
  open_ports
  ≡ₚ filter (fun p => answers_zero (answer p) = true)
       (py_range start_port end_port) /\
  forall num_threads' w' open_ports' st',
    port_scanner_run sys host start_port end_port num_threads' w'
    = Returned open_ports' st' ->
    open_ports' ≡ₚ open_ports.
Proof.
  intros Hstatic.
  assert (forall n w0 a st0,
            port_scanner_run sys host start_port end_port n w0 = Returned a st0 ->
            a ≡ₚ filter (fun p => answers_zero (answer p) = true)
                   (py_range start_port end_port)) as Hany.
  { intros n w0 a st0 Hrun.
    pose proof (port_scanner_run_inv host start_port end_port n w0)
      as [Hinv Hres].
    pose proof (port_scanner_run_probes_sound host start_port end_port n w0)
      as Hsound.
    rewrite Hrun in Hinv, Hres, Hsound. simpl in *.
    destruct (pool_inv_returned _ _ _ _ _ Hinv Hres) as [Hp Ho].
    rewrite Ho, (observed_open_static answer).
    - unfold probed in Hp. by rewrite Hp.
    - eapply Forall_impl; [exact Hsound|].
      intros pr [w1 <-]. by rewrite Hstatic. }
  intros Hrun. split; [by eapply Hany|].
  intros n' w' a' st' Hrun'.
  by rewrite (Hany _ _ _ _ Hrun'), (Hany _ _ _ _ Hrun).
Qed.

(** *** One worker *)

Lemma pool_step_seq host start_port end_port st st' :
  pool_step host st st' ->
  pool_seq start_port end_port st ->
  pool_seq start_port end_port st'.
Proof.
  unfold pool_seq, probed.
  destruct 1; simpl; rewrite ?length_app; simpl; intros (Hlen & Hr & Ho);
    try (assert (l1 = []) as -> by (destruct l1; simpl in *; [done|lia]);
         assert (l2 = []) as -> by (destruct l2; simpl in *; [done|lia]));
    try (assert (ths = []) as -> by (destruct ths; simpl in *; [done|lia]));
    simpl in *;
    rewrite ?observed_open_snoc_open, ?observed_open_snoc_closed,
      ?observed_open_snoc_raise, ?fmap_app by done;
    simpl; rewrite ?app_nil_r in *;
    (split; [lia|]); split;
    rewrite ?Hr, ?Ho, <- ?app_assoc; simpl; try done.
Qed.

(** X5: with one worker thread the ports are probed in the order of the
    range and the list returned holds the open ones in that order. *)
Theorem port_scanner_one_worker_keeps_order host start_port end_port
    num_threads (w : World sys) open_ports st :
  (num_threads <= 1)%Z ->
  port_scanner_run sys host start_port end_port num_threads w
  = Returned open_ports st ->
  probed st = py_range start_port end_port /\
  open_ports = observed_open (probes st) /\
  open_ports `sublist_of` py_range start_port end_port /\
  forall answer,
    static_network sys host answer ->
    open_ports
    = filter (fun p => answers_zero (answer p) = true)
        (py_range start_port end_port).
Proof.
  intros Hn Hrun.
  pose proof (port_scanner_run_inv host start_port end_port num_threads w)
    as [Hinv Hres].
  pose proof (port_scanner_run_probes_sound host start_port end_port
                num_threads w) as Hsound.
  assert (pool_seq start_port end_port
            (final_state
               (port_scanner_run sys host start_port end_port num_threads w)))
    as Hseq.
  { unfold port_scanner_run.
    eapply proj1, (run_preserves host (pool_seq start_port end_port)).
    - apply pool_step_seq.
    - done.
    - unfold pool_seq, probed. simpl. split; [lia|]. by split. }
  rewrite Hrun in Hinv, Hres, Hsound, Hseq. simpl in *.
  destruct Hinv as [H1 _ _ H4 H5 _ _]. rewrite Hres in *. simpl in *.
  destruct Hseq as (_ & Hr & Ho). rewrite Hres in Ho. simpl in Ho.
  assert (port_queue st = []) as Hq by (apply length_zero_iff_nil; lia).
  destruct (tasks_held_0 (threads st)) as [Hp Hu]; [lia|].
  rewrite Hp, Hq, !app_nil_r in Hr. rewrite H5, Hu, !app_nil_r in Ho.
  split; [done|]. split; [done|]. split.
  - rewrite Hr, <- Ho. apply observed_open_sublist.
  - intros answer Hstatic. rewrite <- Ho, (observed_open_static answer).
    + unfold probed in Hr. by rewrite <- Hr.
    + eapply Forall_impl; [exact Hsound|].
      intros pr [w1 <-]. by rewrite Hstatic.
Qed.

End PoolMore.


(** * More on the batch *)

Section BatchMore.

Context {sys : System}.

(** Whatever its outcome, a call of [port_scanner] leaves in the trace
    its own start and probes of ports of the range, each port once at
    most. *)
Lemma port_scanner_trace host start_port end_port num_threads (e : env sys) :
  exists l,
    env_trace (outcome_env (port_scanner sys host start_port end_port num_threads e))
    = env_trace e ++ EvPortScan host start_port end_port num_threads
                     :: probe_events host l /\
    NoDup l.*1 /\ l.*1 ⊆ py_range start_port end_port /\
    forall x e',
      port_scanner sys host start_port end_port num_threads e <> Raises x e'.
Proof.
  unfold port_scanner.
  pose proof (port_scanner_run_inv host start_port end_port num_threads
                (env_world e)) as [Hinv _].
  apply pool_inv_probed in Hinv as [Hnd Hsub].
  destruct (port_scanner_run sys host start_port end_port num_threads (env_world e))
    as [a st|st|st]; simpl in *; exists (probes st); by repeat split.
Qed.

(** What a turn of the loop leaves in the trace, whatever its outcome. *)
Lemma scan_from_file_body_outcome start_port end_port num_threads host results
    (e : env sys) :
  let o := scan_from_file_body sys start_port end_port num_threads host results e in
  exists system r1 r2 evs,
    env_trace (outcome_env o)
    = env_trace e
      ++ [EvPrint ("Scanning " ++ host ++ "...");
          EvPing (ping_argv system host) r1; EvResolve host r2] ++ evs /\
    (evs = [] \/
     answers_zero r1 = true /\
     exists l,
       evs = EvPortScan host start_port end_port num_threads
             :: probe_events host l /\
       l.*1 ⊆ py_range start_port end_port) /\
    match o with
    | Returns _ _ =>
        (evs = [] -> answers_zero r1 = false) /\
        (evs <> [] -> (0 < num_threads)%Z \/ (end_port < start_port)%Z)
    | Raises x _ =>
        evs = [] /\ r2 = Exc x /\ is_herror_or_gaierror (exn_cls x) = false
    | Hangs _ => evs <> []
    end.
Proof.
  cbv zeta. rewrite scan_from_file_body_eq, is_host_online_eq.
  cbv beta iota zeta.
  rewrite get_host_info_eq. cbv zeta. cbn [env_world env_trace log_event].
  set (system := platform_system sys (env_world e)).
  destruct (subprocess_run sys (ping_argv system host) (env_world e)) as [r1 w1].
  cbn [fst snd].
  destruct (gethostbyaddr sys host w1) as [r2 w2]. cbn [fst snd].
  exists system, r1, r2.
  fold (answers_zero r1).
  assert (forall (l : list event),
            ((env_trace e ++ [EvPrint ("Scanning " ++ host ++ "...")])
             ++ [EvPing (ping_argv system host) r1]) ++ [EvResolve host r2] ++ l
            = env_trace e
              ++ [EvPrint ("Scanning " ++ host ++ "...");
                  EvPing (ping_argv system host) r1; EvResolve host r2] ++ l)
    as Happ by (intros; by rewrite <- !app_assoc).
  assert (forall e3 : env sys,
            env_trace e3
            = ((env_trace e ++ [EvPrint ("Scanning " ++ host ++ "...")])
               ++ [EvPing (ping_argv system host) r1]) ++ [EvResolve host r2] ->
            answers_zero r1 = true ->
            forall k : list Z -> report,
            let o := match port_scanner sys host start_port end_port
                             num_threads e3 with
                     | Returns a e4 => Returns (k a) e4
                     | Raises x e4 => Raises x e4
                     | Hangs e4 => Hangs e4
                     end in
            exists evs,
              env_trace (outcome_env o)
              = env_trace e
                ++ [EvPrint ("Scanning " ++ host ++ "...");
                    EvPing (ping_argv system host) r1; EvResolve host r2] ++ evs /\
              (evs = [] \/
               answers_zero r1 = true /\
               exists l,
                 evs = EvPortScan host start_port end_port num_threads
                       :: probe_events host l /\
                 l.*1 ⊆ py_range start_port end_port) /\
              match o with
              | Returns _ _ =>
                  (evs = [] -> answers_zero r1 = false) /\
                  (evs <> [] ->
                   (0 < num_threads)%Z \/ (end_port < start_port)%Z)
              | Raises x _ =>
                  evs = [] /\ r2 = Exc x /\
                  is_herror_or_gaierror (exn_cls x) = false
              | Hangs _ => evs <> []
              end) as Hscan.
  { intros e3 Htr3 Hzero k. cbv zeta.
    destruct (port_scanner_trace host start_port end_port num_threads e3)
      as (l & Htr & _ & Hsub & Hnr).
    exists (EvPortScan host start_port end_port num_threads :: probe_events host l).
    destruct (port_scanner sys host start_port end_port num_threads e3)
      as [a e4|x e4|e4] eqn:Hps; simpl in *.
    - split; [by rewrite Htr, Htr3, <- !app_assoc|]. split.
      { right. split; [done|]. by exists l. }
      split; [done|]. intros _.
      destruct (Z_lt_le_dec 0 num_threads) as [|Hn]; [by left|].
      destruct (Z_lt_le_dec end_port start_port) as [|Hse]; [by right|].
      exfalso. unfold port_scanner in Hps.
      destruct (port_scanner_run_no_worker host start_port end_port
                  num_threads (env_world e3) Hse Hn) as (st & Hrun & _).
      by rewrite Hrun in Hps.
    - by destruct (Hnr x e4).
    - split; [by rewrite Htr, Htr3, <- !app_assoc|]. split; [|done].
      right. split; [done|]. by exists l. }
  destruct r2 as [r|x]; [|destruct (is_herror_or_gaierror (exn_cls x)) eqn:Hx].
  - destruct (answers_zero r1) eqn:Hz.
    + by apply Hscan.
    + exists []. simpl. split; [by rewrite <- !app_assoc|]. by split; [left|].
  - destruct (answers_zero r1) eqn:Hz.
    + by apply Hscan.
    + exists []. simpl. split; [by rewrite <- !app_assoc|]. by split; [left|].
  - exists []. simpl. split; [by rewrite <- !app_assoc|]. by split; [left|].
Qed.

Lemma event_within_mono hosts hosts' start_port end_port num_threads
    output_filename ev :
  hosts ⊆ hosts' ->
  event_within hosts start_port end_port num_threads output_filename ev ->
  event_within hosts' start_port end_port num_threads output_filename ev.
Proof.
  intros Hsub. destruct ev; simpl; try done.
  - intros (system & host & Hin & ->). exists system, host. split; [auto|done].
  - auto.
  - intros (Hin & ?). split; [auto|done].
  - intros (Hin & ?). split; [auto|done].
Qed.

Lemma scan_from_file_body_within start_port end_port num_threads host results
    output_filename (e : env sys) :
  exists evs,
    env_trace (outcome_env
                 (scan_from_file_body sys start_port end_port num_threads host
                    results e))
    = env_trace e ++ evs /\
    Forall (event_within [host] start_port end_port num_threads output_filename)
      evs.
Proof.
  destruct (scan_from_file_body_outcome start_port end_port num_threads host
              results e) as (system & r1 & r2 & evs & Htr & Hevs & _).
  eexists. split; [exact Htr|].
  assert (host ∈ [host]) as Hin by apply list_elem_of_here.
  repeat (apply list.Forall_cons; split; [simpl; by eauto|]).
  destruct Hevs as [->|(_ & l & -> & Hsub)]; [constructor|].
  apply list.Forall_cons. split; [done|].
  unfold probe_events. apply Forall_fmap, Forall_forall. intros [p r] Hpr. simpl.
  split; [done|]. apply elem_of_py_range, Hsub, list_elem_of_fmap.
  by exists (p, r).
Qed.

(** The loop, whatever its outcome. *)
Lemma for_each_body_outcome start_port end_port num_threads output_filename
    hosts results (e : env sys) :
  let o := for_each sys (scan_from_file_body sys start_port end_port num_threads)
             hosts results e in
  exists evs,
    env_trace (outcome_env o) = env_trace e ++ evs /\
    Forall (event_within hosts start_port end_port num_threads output_filename)
      evs /\
    match o with
    | Returns _ _ =>
        (num_threads <= 0)%Z -> (start_port <= end_port)%Z ->
        Forall (fun ev => ping_failed ev = true /\ is_scan_event ev = false) evs
    | Raises x _ =>
        is_herror_or_gaierror (exn_cls x) = false /\
        exists host,
          host ∈ hosts /\ last (env_trace e ++ evs) = Some (EvResolve host (Exc x))
    | Hangs _ =>
        exists host pre l,
          host ∈ hosts /\
          evs = pre ++ EvPortScan host start_port end_port num_threads
                       :: probe_events host l
    end.
Proof.
  revert results e. induction hosts as [|host hosts IH]; intros results e.
  { exists []. simpl. rewrite app_nil_r. split; [done|]. split; constructor. }
  cbv zeta. simpl. unfold mbind, M_bind.
  destruct (scan_from_file_body_within start_port end_port num_threads host
              results output_filename e) as (evs1 & Htr1 & Hin1).
  destruct (scan_from_file_body_outcome start_port end_port num_threads host
              results e) as (system & r1 & r2 & evs & Htr & Hevs & Hout).
  cbv zeta in Hout.
  assert (Forall (event_within (host :: hosts) start_port end_port num_threads
                    output_filename) evs1) as Hin1'.
  { eapply Forall_impl; [exact Hin1|]. intros ev. apply event_within_mono.
    intros h ->%list_elem_of_singleton. apply list_elem_of_here. }
  rewrite Htr1 in Htr. apply app_inv_head in Htr. subst evs1.
  destruct (scan_from_file_body sys start_port end_port num_threads host
              results e) as [results1 e1|x e1|e1]; simpl in *.
  - destruct (IH results1 e1) as (evs2 & Htr2 & Hin2 & Hout2).
    cbv zeta in Htr2, Hout2.
    eexists. split; [rewrite Htr2, Htr1, <- app_assoc; reflexivity|]. split.
    { apply Forall_app. split; [done|]. eapply Forall_impl; [exact Hin2|].
      intros ev. apply event_within_mono. intros h Hh. by apply list_elem_of_further. }
    destruct (for_each sys _ hosts results1 e1) as [results2 e2|x e2|e2];
      simpl in *.
    + intros Hn Hse. destruct Hout as [Hping Hscan].
      destruct Hevs as [->|(_ & l & -> & _)]; [|destruct Hscan; [done|lia..]].
      specialize (Hping eq_refl). simpl.
      repeat (apply list.Forall_cons; split; [simpl; by rewrite ?Hping|]).
      by apply Hout2.
    + destruct Hout2 as (Hx & h & Hh & Hlast). split; [done|].
      exists h. split; [by apply list_elem_of_further|].
      rewrite Htr1, <- app_assoc in Hlast. exact Hlast.
    + destruct Hout2 as (h & pre & l & Hh & ->).
      exists h, ([EvPrint ("Scanning " ++ host ++ "...");
                  EvPing (ping_argv system host) r1; EvResolve host r2]
                 ++ evs ++ pre), l.
      split; [by apply list_elem_of_further|]. by rewrite <- !app_assoc.
  - destruct Hout as (-> & -> & Hx).
    eexists. split; [exact Htr1|]. split; [done|]. split; [done|].
    exists host. split; [apply list_elem_of_here|].
    change [EvPrint ("Scanning " ++ host ++ "...");
            EvPing (ping_argv system host) r1; EvResolve host (Exc x)]
      with ([EvPrint ("Scanning " ++ host ++ "...");
             EvPing (ping_argv system host) r1] ++ [EvResolve host (Exc x)]).
    by rewrite !app_assoc, last_snoc.
  - eexists. split; [exact Htr1|]. split; [done|].
    destruct Hevs as [->|(_ & l & -> & _)]; [done|].
    exists host, [EvPrint ("Scanning " ++ host ++ "...");
                  EvPing (ping_argv system host) r1; EvResolve host r2], l.
    split; [apply list_elem_of_here|done].
Qed.


(** The events of a call of [scan_from_file], whatever its outcome:
    those of the loop, then those of the writing of the report when the
    loop came to its end. *)
Lemma scan_from_file_outcome_trace host_list start_port end_port
    num_threads output_filename (e : env sys) :
  exists evs written,
    env_trace (outcome_env
                 (scan_from_file sys host_list start_port end_port num_threads
                    output_filename e))
    = env_trace e ++ evs ++ written /\
    Forall (event_within host_list start_port end_port num_threads
              output_filename) evs /\
    (written = [] \/
     exists rep r, written = [EvDump output_filename rep r] \/
       exists msg, written = [EvDump output_filename rep r; EvPrint msg]).
Proof.
  destruct (for_each_body_outcome start_port end_port num_threads
              output_filename host_list [] e) as (evs & Htr & Hin & _).
  cbv zeta in Htr.
  unfold scan_from_file, mbind, M_bind.
  destruct (for_each sys
              (scan_from_file_body sys start_port end_port num_threads)
              host_list [] e) as [results e1|x1 e1|e1]; simpl in Htr;
    [|exists evs, []; rewrite app_nil_r; split; [done|]; split; [done|by left]..].
  unfold try_except, call, print, log_event. simpl.
  destruct (json_dump_file sys output_filename results (env_world e1))
    as [[[]|x] w2]; simpl; [|destruct (is_OSError (exn_cls x))]; simpl;
    exists evs; eexists;
    (split; [rewrite Htr, <- ?app_assoc; reflexivity|]);
    (split; [done|]); right; eexists _, _; eauto.
Qed.

(** X12: [scan_from_file] keeps to what it was given.  Whatever the
    outcome, it pings and resolves only hosts of the list, scans only
    them with the range and thread count it got, probes only ports of
    [start_port .. end_port], and writes only the output file. *)
Theorem scan_from_file_stays_within_its_arguments host_list start_port end_port
    num_threads output_filename (e : env sys) :
  exists evs,
    env_trace (outcome_env
                 (scan_from_file sys host_list start_port end_port num_threads
                    output_filename e))
    = env_trace e ++ evs /\
    Forall (event_within host_list start_port end_port num_threads
              output_filename) evs.
Proof.
  destruct (scan_from_file_outcome_trace host_list start_port end_port
              num_threads output_filename e)
    as (evs & written & Htr & Hin & Hwritten).
  exists (evs ++ written). split; [done|].
  apply Forall_app. split; [done|].
  destruct Hwritten as [-> | (rep & r & [-> | [msg ->] ]) ].
  - constructor.
  - by repeat constructor.
  - by repeat constructor.
Qed.

(** X7: with a thread count of 0 or below and a range that has ports,
    [scan_from_file] returns only if no host answered the ping: no port
    scan was started, and every entry of the report written says
    "Offline" with no open port. *)
Theorem scan_from_file_without_workers host_list start_port end_port
    num_threads output_filename (e : env sys) e' :
  (num_threads <= 0)%Z ->
  (start_port <= end_port)%Z ->
  scan_from_file sys host_list start_port end_port num_threads output_filename e
  = Returns () e' ->
  exists evs rep r,
    env_trace e' = env_trace e ++ evs /\
    Forall (fun ev => ping_failed ev = true /\ is_scan_event ev = false) evs /\
    EvDump output_filename rep r ∈ evs /\
    forall h rec,
      (h, rec) ∈ rep ->
      exists hostname alias, rec = make_record "Offline" hostname alias [].
Proof.
  intros Hn Hse Hrun.
  destruct (for_each_body_outcome start_port end_port num_threads
              output_filename host_list [] e) as (evs & Htr & _ & Hout).
  cbv zeta in Htr, Hout.
  pose proof Hrun as (scans & r & msg & Hhosts & Hok & Htr')%scan_from_file_returns_inv.
  revert Hrun. unfold scan_from_file, mbind, M_bind.
  destruct (for_each sys
              (scan_from_file_body sys start_port end_port num_threads)
              host_list [] e) as [results e1|x1 e1|e1] eqn:Hloop; [|done..].
  simpl in Htr. specialize (Hout Hn Hse).
  apply for_each_body_returns in Hloop as (scans1 & _ & _ & _ & Htr1).
  intros Hrun.
  assert (exists tail,
            env_trace e' = env_trace e1 ++ tail /\
            Forall (fun ev => ping_failed ev = true /\ is_scan_event ev = false)
              tail) as (tail & Htl & Htail).
  { revert Hrun. unfold try_except, call, print, log_event. simpl.
    destruct (json_dump_file sys output_filename results (env_world e1))
      as [[[]|x] w2]; simpl; [|destruct (is_OSError (exn_cls x))]; simpl;
      [| |done]; intros [= <-]; simpl; eexists;
      (split; [rewrite <- app_assoc; reflexivity|]); by repeat constructor. }
  assert (Forall (fun o => hs_online o = false /\ hs_open_ports o = []) scans)
    as Hoff.
  { assert (Forall (fun ev => ping_failed ev = true /\ is_scan_event ev = false)
              (concat (hs_events <$> scans))) as Hall.
    { rewrite Htl, Htr in Htr'. rewrite <- !app_assoc in Htr'.
      apply app_inv_head in Htr'.
      assert (Forall (fun ev => ping_failed ev = true /\ is_scan_event ev = false)
                (evs ++ tail)) as Hboth by (by apply Forall_app).
      rewrite Htr' in Hboth. by apply Forall_app in Hboth as [? _]. }
    rewrite Forall_concat, Forall_fmap in Hall.
    rewrite Forall_forall in Hall, Hok. apply Forall_forall. intros o Ho.
    specialize (Hall o Ho). specialize (Hok o Ho). simpl in Hall.
    destruct Hok as (system & r1 & r2 & evs0 & Hev & Hon & _ & Hevs).
    rewrite Hev in Hall.
    apply list.Forall_cons in Hall as [_ Hall].
    apply list.Forall_cons in Hall as [[Hping _] _]. simpl in Hping.
    destruct (hs_online o).
    - destruct Hon as [Hon _]. rewrite (Hon eq_refl) in Hping. done.
    - by destruct Hevs as [_ ->]. }
  exists (evs ++ tail), (report_of scans), r.
  split; [by rewrite Htl, Htr, <- app_assoc|]. split; [by apply Forall_app|].
  split.
  - rewrite Htl, Htr, <- app_assoc in Htr'. apply app_inv_head in Htr'.
    rewrite Htr'. rewrite !elem_of_app. right. apply list_elem_of_here.
  - intros h rec (o & Ho & _ & ->)%report_records.
    rewrite Forall_forall in Hoff. destruct (Hoff o Ho) as [Hon Hports].
    exists (hs_hostname o), (hs_alias o). unfold hs_record. by rewrite Hon, Hports.
Qed.

End BatchMore.

(** * The prompts, the host file and the program *)

Section InteractiveResults.

Context {sys : System}.
Variable open_file : string -> World sys -> result unit * World sys.
Variable read_file : string -> World sys -> result (list string) * World sys.
Variable ip_address : string -> bool.

(** ** TCP_port_check *)

Lemma accepted_port_range low line port :
  accepted_port low line = Some port -> (low <= port <= 65000)%Z.
Proof.
  unfold accepted_port. destruct (py_int line) as [p|]; [|done].
  destruct (Z.leb_spec low p), (Z.leb_spec p 65000); simpl; try done.
  intros [= <-]. lia.
Qed.

(** A turn of the loop on a line that was typed. *)
Lemma port_turn_cons prompt low line rest (e : env sys) :
  port_turn sys prompt low (line :: rest) e
  = match accepted_port low line with
    | Some port => Returns (Some port) (log_event (EvPrint prompt) e)
    | None =>
        Returns None
          (log_event
             (EvPrint ("Entry is invalid! Please enter a number from "
                       ++ pretty low ++ " to 65000."))
             (log_event (EvPrint prompt) e))
    end.
Proof.
  unfold accepted_port, port_turn, try_except, mbind, M_bind, input, print,
    int_call, raise, mret, M_ret. simpl.
  destruct (py_int line) as [p|]; simpl; [|done].
  by destruct ((low <=? p)%Z && (p <=? 65000)%Z).
Qed.

(** A turn of the loop at the end of the input. *)
Lemma port_turn_nil prompt low (e : env sys) :
  port_turn sys prompt low [] e
  = Returns None
      (log_event (EvPrint "EOF when reading a line")
         (log_event (EvPrint prompt) e)).
Proof. reflexivity. Qed.

Lemma ask_port_nil prompt low (e : env sys) :
  ask_port sys prompt low [] e
  = Hangs (log_event (EvPrint "EOF when reading a line")
             (log_event (EvPrint prompt) e)).
Proof. reflexivity. Qed.

Lemma ask_port_cons prompt low line rest (e : env sys) :
  ask_port sys prompt low (line :: rest) e
  = match accepted_port low line with
    | Some port => Returns (port, rest) (log_event (EvPrint prompt) e)
    | None =>
        ask_port sys prompt low rest
          (log_event
             (EvPrint ("Entry is invalid! Please enter a number from "
                       ++ pretty low ++ " to 65000."))
             (log_event (EvPrint prompt) e))
    end.
Proof.
  cbn [ask_port]. unfold mbind at 1, M_bind at 1. rewrite port_turn_cons.
  by destruct (accepted_port low line).
Qed.

(** The loop returns the first entry that is a number in the bounds. *)
Lemma ask_port_returns prompt low stdin (e : env sys) port rest :
  (exists e', ask_port sys prompt low stdin e = Returns (port, rest) e') <->
  exists skipped line,
    stdin = skipped ++ line :: rest /\
    Forall (fun l => accepted_port low l = None) skipped /\
    accepted_port low line = Some port.
Proof.
  revert e. induction stdin as [|line0 stdin IH]; intros e.
  - rewrite ask_port_nil. split; [by intros [e' ?]|].
    intros (skipped & line & Heq & _). by destruct skipped.
  - rewrite ask_port_cons. destruct (accepted_port low line0) as [p|] eqn:Ha.
    + split.
      * intros [e' [= <- <- <-]]. exists [], line0. by repeat split.
      * intros ([|l0 skipped] & line & Heq & Hsk & Hline).
        -- injection Heq as <- <-. rewrite Ha in Hline. injection Hline as <-.
           eauto.
        -- injection Heq as <- ->. apply list.Forall_cons in Hsk as [Hl0 _].
           congruence.
    + rewrite IH. split.
      * intros (skipped & line & -> & Hsk & Hline).
        exists (line0 :: skipped), line. repeat split; [by constructor|done].
      * intros ([|l0 skipped] & line & Heq & Hsk & Hline).
        -- injection Heq as <- <-. congruence.
        -- injection Heq as <- ->. apply list.Forall_cons in Hsk as [_ Hsk].
           by exists skipped, line.
Qed.

(** The loop raises nothing: at the end of the input it goes on for
    ever. *)
Lemma ask_port_never_raises prompt low stdin (e : env sys) x e' :
  ask_port sys prompt low stdin e <> Raises x e'.
Proof.
  revert e. induction stdin as [|line stdin IH]; intros e.
  - by rewrite ask_port_nil.
  - rewrite ask_port_cons. destruct (accepted_port low line); [done|apply IH].
Qed.

(** The bounds of the pair [TCP_port_check] returns. *)
Lemma TCP_port_check_range stdin (e : env sys) start_port end_port rest :
  (exists e',
     TCP_port_check sys stdin e = Returns (start_port, end_port, rest) e') ->
  (1 <= start_port <= end_port)%Z /\ (end_port <= 65000)%Z.
Proof.
  intros [e' Hrun]. revert Hrun. unfold TCP_port_check, mbind, M_bind.
  destruct (ask_port sys "Enter the start TCP port: " 1 stdin e)
    as [[s stdin1] e1|x e1|e1] eqn:H1; [|done..].
  destruct (ask_port sys "Enter the end TCP port: " s stdin1 e1)
    as [[e2 stdin2] e2'|x e2'|e2'] eqn:H2; [|done..].
  intros [= <- <- <- <-].
  assert (exists e', ask_port sys "Enter the start TCP port: " 1 stdin e
                     = Returns (s, stdin1) e') as Ha by eauto.
  assert (exists e', ask_port sys "Enter the end TCP port: " s stdin1 e1
                     = Returns (e2, stdin2) e') as Hb by eauto.
  apply ask_port_returns in Ha as (sk1 & l1 & _ & _ & Hl1).
  apply ask_port_returns in Hb as (sk2 & l2 & _ & _ & Hl2).
  apply accepted_port_range in Hl1, Hl2. lia.
Qed.

(** X8: [TCP_port_check] returns a pair with
    [1 <= start_port <= end_port <= 65000]: the first entry that
    [int] reads as a number from 1 to 65000, then the first later entry
    that it reads as a number from that start to 65000; every other
    entry is skipped.  It returns exactly when such entries are typed,
    and it raises nothing: when the input ends before, the
    [EOFError] of [input] is caught and the loop never ends. *)
Theorem TCP_port_check_returns_valid_range stdin (e : env sys) start_port
    end_port rest :
  ((exists e',
      TCP_port_check sys stdin e = Returns (start_port, end_port, rest) e') <->
   exists skipped1 line1 skipped2 line2,
     stdin = skipped1 ++ line1 :: skipped2 ++ line2 :: rest /\
     Forall (fun l => accepted_port 1 l = None) skipped1 /\
     accepted_port 1 line1 = Some start_port /\
     Forall (fun l => accepted_port start_port l = None) skipped2 /\
     accepted_port start_port line2 = Some end_port) /\
  ((exists e',
      TCP_port_check sys stdin e = Returns (start_port, end_port, rest) e') ->
   (1 <= start_port <= end_port)%Z /\ (end_port <= 65000)%Z /\
   py_range start_port end_port <> []) /\
  (forall x e', TCP_port_check sys stdin e <> Raises x e').
Proof.
  assert ((exists e',
             TCP_port_check sys stdin e = Returns (start_port, end_port, rest) e') <->
          exists skipped1 line1 skipped2 line2,
            stdin = skipped1 ++ line1 :: skipped2 ++ line2 :: rest /\
            Forall (fun l => accepted_port 1 l = None) skipped1 /\
            accepted_port 1 line1 = Some start_port /\
            Forall (fun l => accepted_port start_port l = None) skipped2 /\
            accepted_port start_port line2 = Some end_port) as Hiff.
  { unfold TCP_port_check, mbind, M_bind. split.
    - intros [e' Hrun].
      destruct (ask_port sys "Enter the start TCP port: " 1 stdin e)
        as [[s stdin1] e1|x e1|e1] eqn:H1; [|done..].
      destruct (ask_port sys "Enter the end TCP port: " s stdin1 e1)
        as [[e2 stdin2] e2'|x e2'|e2'] eqn:H2; [|done..].
      injection Hrun as <- <- <- <-.
      assert (exists e', ask_port sys "Enter the start TCP port: " 1 stdin e
                         = Returns (s, stdin1) e') as Ha by eauto.
      assert (exists e', ask_port sys "Enter the end TCP port: " s stdin1 e1
                         = Returns (e2, stdin2) e') as Hb by eauto.
      apply ask_port_returns in Ha as (sk1 & l1 & -> & Hsk1 & Hl1).
      apply ask_port_returns in Hb as (sk2 & l2 & -> & Hsk2 & Hl2).
      by exists sk1, l1, sk2, l2.
    - intros (sk1 & l1 & sk2 & l2 & -> & Hsk1 & Hl1 & Hsk2 & Hl2).
      destruct (proj2 (ask_port_returns "Enter the start TCP port: " 1
                         (sk1 ++ l1 :: sk2 ++ l2 :: rest) e start_port
                         (sk2 ++ l2 :: rest))) as [e1 ->]; [by exists sk1, l1|].
      destruct (proj2 (ask_port_returns "Enter the end TCP port: " start_port
                         (sk2 ++ l2 :: rest) e1 end_port rest)) as [e2 ->];
        [by exists sk2, l2|].
      eauto. }
  split; [exact Hiff|]. split.
  - intros (sk1 & l1 & sk2 & l2 & _ & _ & Hl1 & _ & Hl2)%Hiff.
    apply accepted_port_range in Hl1, Hl2. split; [lia|]. split; [lia|].
    intros Hnil.
    assert (start_port ∈ py_range start_port end_port) as Hin
      by (apply elem_of_py_range; lia).
    rewrite Hnil in Hin. by apply elem_of_nil in Hin.
  - intros x e'. unfold TCP_port_check, mbind, M_bind.
    destruct (ask_port sys "Enter the start TCP port: " 1 stdin e)
      as [[s stdin1] e1|x1 e1|e1] eqn:H1; [| |done].
    + destruct (ask_port sys "Enter the end TCP port: " s stdin1 e1)
        as [[e2 stdin2] e2'|x2 e2'|e2'] eqn:H2; [done| |done].
      by destruct (ask_port_never_raises _ _ _ _ _ _ H2).
    + by destruct (ask_port_never_raises _ _ _ _ _ _ H1).
Qed.

(** ** get_threads_count *)

Lemma get_threads_count_cons line rest :
  get_threads_count (line :: rest)
  = match accepted_threads line with
    | Some n => Some n
    | None => get_threads_count rest
    end.
Proof.
  unfold accepted_threads. simpl.
  destruct (String.eqb (py_strip line) ""); [done|].
  by destruct (py_int (py_strip line)).
Qed.

Lemma get_threads_count_io_nil (e : env sys) :
  get_threads_count_io sys [] e
  = Hangs (log_event (EvPrint "EOF when reading a line")
             (log_event
                (EvPrint "Enter the number of threads to use (default 100): ")
                e)).
Proof. reflexivity. Qed.

Lemma get_threads_count_io_cons line rest (e : env sys) :
  get_threads_count_io sys (line :: rest) e
  = let e1 := log_event
                (EvPrint "Enter the number of threads to use (default 100): ") e in
    match accepted_threads line with
    | Some n => Returns (n, rest) e1
    | None =>
        get_threads_count_io sys rest
          (log_event
             (EvPrint ("Invalid entry! Please enter a valid number "
                       ++ "or press Enter to use the default.")) e1)
    end.
Proof.
  cbn [get_threads_count_io].
  unfold accepted_threads, threads_turn, try_except, mbind, M_bind, input,
    print, int_call, raise, mret, M_ret. simpl.
  destruct (String.eqb (py_strip line) ""); [done|].
  by destruct (py_int (py_strip line)).
Qed.

(** The function as it runs, with what it writes and the lines it
    leaves, gives what [get_threads_count] gives. *)
Lemma get_threads_count_io_agrees stdin (e : env sys) :
  match get_threads_count_io sys stdin e with
  | Returns (n, _) _ => get_threads_count stdin = Some n
  | Raises _ _ => False
  | Hangs _ => get_threads_count stdin = None
  end.
Proof.
  revert e. induction stdin as [|line stdin IH]; intros e; [done|].
  rewrite get_threads_count_io_cons, get_threads_count_cons. cbv zeta.
  destruct (accepted_threads line); [done|]. apply IH.
Qed.

Lemma get_threads_count_io_returns stdin (e : env sys) n rest :
  (exists e', get_threads_count_io sys stdin e = Returns (n, rest) e') <->
  exists skipped line,
    stdin = skipped ++ line :: rest /\
    Forall (fun l => accepted_threads l = None) skipped /\
    accepted_threads line = Some n.
Proof.
  revert e. induction stdin as [|line0 stdin IH]; intros e.
  - rewrite get_threads_count_io_nil. split; [by intros [e' ?]|].
    intros (skipped & line & Heq & _). by destruct skipped.
  - rewrite get_threads_count_io_cons. cbv zeta.
    destruct (accepted_threads line0) as [m|] eqn:Ha.
    + split.
      * intros [e' [= <- <- <-]]. exists [], line0. by repeat split.
      * intros ([|l0 skipped] & line & Heq & Hsk & Hline).
        -- injection Heq as <- <-. rewrite Ha in Hline. injection Hline as <-.
           eauto.
        -- injection Heq as <- ->. apply list.Forall_cons in Hsk as [Hl0 _].
           congruence.
    + rewrite IH. split.
      * intros (skipped & line & -> & Hsk & Hline).
        exists (line0 :: skipped), line. repeat split; [by constructor|done].
      * intros ([|l0 skipped] & line & Heq & Hsk & Hline).
        -- injection Heq as <- <-. congruence.
        -- injection Heq as <- ->. apply list.Forall_cons in Hsk as [_ Hsk].
           by exists skipped, line.
Qed.

(** X10: [get_threads_count] answers with the first line that is blank
    (then 100) or that [int] reads as an integer, of any sign (then
    that integer); the lines before it are refused; it returns exactly
    when such a line is typed, leaving the lines after it, and it
    raises nothing: when the input ends before, the loop never ends. *)
Theorem get_threads_count_first_accepted stdin n :
  (get_threads_count stdin = Some n <->
   exists skipped line rest,
     stdin = skipped ++ line :: rest /\
     Forall (fun l => accepted_threads l = None) skipped /\
     accepted_threads line = Some n) /\
  (forall (e : env sys) rest,
     (exists e', get_threads_count_io sys stdin e = Returns (n, rest) e') <->
     exists skipped line,
       stdin = skipped ++ line :: rest /\
       Forall (fun l => accepted_threads l = None) skipped /\
       accepted_threads line = Some n) /\
  (forall (e : env sys) x e', get_threads_count_io sys stdin e <> Raises x e').
Proof.
  split; [|split].
  - induction stdin as [|line0 stdin IH].
    + split; [done|]. intros (skipped & line & rest & Heq & _).
      by destruct skipped.
    + rewrite get_threads_count_cons.
      destruct (accepted_threads line0) as [m|] eqn:Ha.
      * split.
        -- intros [= <-]. exists [], line0, stdin. by repeat split.
        -- intros ([|l0 skipped] & line & rest & Heq & Hsk & Hline).
           ++ injection Heq as <- <-. congruence.
           ++ injection Heq as <- ->. apply list.Forall_cons in Hsk as [Hl0 _].
              congruence.
      * rewrite IH. split.
        -- intros (skipped & line & rest & -> & Hsk & Hline).
           exists (line0 :: skipped), line, rest.
           repeat split; [by constructor|done].
        -- intros ([|l0 skipped] & line & rest & Heq & Hsk & Hline).
           ++ injection Heq as <- <-. congruence.
           ++ injection Heq as <- ->. apply list.Forall_cons in Hsk as [_ Hsk].
              by exists skipped, line, rest.
  - intros e rest. apply get_threads_count_io_returns.
  - intros e x e' Hrun.
    pose proof (get_threads_count_io_agrees stdin e) as Hagree.
    by rewrite Hrun in Hagree.
Qed.

(** ** check_file *)

Lemma check_file_prompt_nil (e : env sys) :
  check_file_prompt sys open_file [] e
  = Raises EOF_error
      (log_event
         (EvPrint "Enter the path to the file containing IP addresses: ") e).
Proof. reflexivity. Qed.

Lemma check_file_prompt_cons path rest (e : env sys) :
  check_file_prompt sys open_file (path :: rest) e
  = let e1 := log_event
                (EvPrint "Enter the path to the file containing IP addresses: ") e in
    let rw := open_file path (env_world e1) in
    match rw.1 with
    | Ok _ => Returns (path, rest) (Build_env rw.2 (env_trace e1))
    | Exc x =>
        check_file_prompt sys open_file rest
          (log_event
             (EvPrint (if is_FileNotFoundError (exn_cls x)
                       then "File " ++ path ++ " was not found! Please try again."
                       else "An error occurred: " ++ exn_msg x))
             (Build_env rw.2 (env_trace e1)))
    end.
Proof.
  cbn [check_file_prompt].
  unfold mbind, M_bind, input, print, try_except, fs_call, mret, M_ret. simpl.
  destruct (open_file path (env_world e)) as [[[]|x] w']; simpl; [done|].
  by destruct (is_FileNotFoundError (exn_cls x)).
Qed.

Lemma check_file_prompt_returns stdin (e : env sys) path rest e1 :
  check_file_prompt sys open_file stdin e = Returns (path, rest) e1 ->
  exists skipped w,
    stdin = skipped ++ path :: rest /\
    is_Ok (open_file path w).1 = true /\
    Forall (fun p => exists w', is_Ok (open_file p w').1 = false) skipped.
Proof.
  revert e. induction stdin as [|path0 stdin IH]; intros e; [done|].
  rewrite check_file_prompt_cons. cbv zeta. cbn [env_world log_event].
  destruct (open_file path0 (env_world e)) as [[[]|x] w'] eqn:Hopen; simpl.
  - intros [= <- <- <-]. exists [], (env_world e). rewrite Hopen. by repeat split.
  - intros (skipped & w & -> & Hok & Hsk)%IH.
    exists (path0 :: skipped), w. repeat split; [done|].
    constructor; [|done]. exists (env_world e). by rewrite Hopen.
Qed.

(** The loop that asks for the path ends in one way only beside its
    return: by the [EOFError] of [input], after every path typed
    failed to open. *)
Lemma check_file_prompt_stops stdin (e : env sys) :
  match check_file_prompt sys open_file stdin e with
  | Returns _ _ => True
  | Raises x e' =>
      x = EOF_error /\
      Forall (fun p => exists w', is_Ok (open_file p w').1 = false) stdin /\
      last (env_trace e')
      = Some (EvPrint "Enter the path to the file containing IP addresses: ")
  | Hangs _ => False
  end.
Proof.
  revert e. induction stdin as [|path rest IH]; intros e.
  - rewrite check_file_prompt_nil. split; [done|]. split; [constructor|].
    simpl. by rewrite last_snoc.
  - rewrite check_file_prompt_cons. cbv zeta. cbn [env_world log_event].
    destruct (open_file path (env_world e)) as [[[]|x0] w'] eqn:Hopen;
      simpl; [done|].
    match goal with |- context [check_file_prompt sys open_file rest ?e1] =>
      specialize (IH e1);
      destruct (check_file_prompt sys open_file rest e1) as [a e2|x e2|e2]
    end; [done| |done].
    destruct IH as (-> & Hall & Hlast). split; [done|]. split; [|done].
    constructor; [|done]. exists (env_world e). by rewrite Hopen.
Qed.

(** The loop over the lines keeps the list free of repetitions and adds
    at its end, in order, the accepted lines that are new. *)
Lemma collect_addresses_spec lines return_list :
  NoDup return_list ->
  let r := collect_addresses ip_address lines return_list in
  NoDup r /\
  (forall h,
     h ∈ r <->
     h ∈ return_list \/ (ip_address h = true /\ h ∈ py_strip <$> lines)) /\
  exists added,
    r = return_list ++ added /\ added `sublist_of` py_strip <$> lines.
Proof.
  revert return_list. induction lines as [|line lines IH]; intros acc Hnd.
  { cbv zeta. simpl. split; [done|]. split.
    - intros h. split; [by left|]. intros [? | [_ ?%elem_of_nil] ]; done.
    - exists []. by rewrite app_nil_r. }
  cbv zeta. simpl.
  destruct (ip_address (py_strip line)) eqn:Hip; [case_bool_decide as Hin|].
  - destruct (IH acc Hnd) as (Hnd' & Hmem & added & Hr & Hsub).
    split; [done|]. split.
    + intros h. rewrite Hmem, elem_of_cons. split; [tauto|].
      intros [? | [Hh [-> | ?] ] ]; tauto.
    + exists added. split; [done|]. by apply sublist_cons.
  - assert (NoDup (acc ++ [py_strip line])) as Hnd1.
    { apply list.NoDup_app. repeat split; [done| |apply NoDup_singleton].
      by intros h Hh ->%list_elem_of_singleton. }
    destruct (IH _ Hnd1) as (Hnd' & Hmem & added & Hr & Hsub).
    split; [done|]. split.
    + intros h. rewrite Hmem, elem_of_app, list_elem_of_singleton, elem_of_cons.
      split; [|tauto]. intros [ [? | ->] | [Hh ?] ]; tauto.
    + exists (py_strip line :: added). split.
      * by rewrite Hr, <- app_assoc.
      * by apply sublist_skip.
  - destruct (IH acc Hnd) as (Hnd' & Hmem & added & Hr & Hsub).
    split; [done|]. split.
    + intros h. rewrite Hmem, elem_of_cons. split; [tauto|].
      intros [? | [Hh [-> | ?] ] ]; [tauto|congruence|tauto].
    + exists added. split; [done|]. by apply sublist_cons.
Qed.

(** A call of [check_file] that returns read the file at the first
    typed path that could be opened. *)
Lemma check_file_returns_inv stdin (e : env sys) hosts rest e' :
  check_file sys open_file read_file ip_address stdin e
  = Returns (hosts, rest) e' ->
  exists skipped path lines w1 w2,
    stdin = skipped ++ path :: rest /\
    Forall (fun p => exists w', is_Ok (open_file p w').1 = false) skipped /\
    is_Ok (open_file path w1).1 = true /\
    (read_file path w2).1 = Ok lines /\
    hosts = collect_addresses ip_address lines [].
Proof.
  unfold check_file, mbind, M_bind.
  destruct (check_file_prompt sys open_file stdin e)
    as [[path stdin1] e1|x e1|e1] eqn:Hprompt; [|done..].
  apply check_file_prompt_returns in Hprompt as (skipped & w1 & -> & Hok & Hsk).
  unfold fs_call.
  destruct (read_file path (env_world e1)) as [[lines|x] w'] eqn:Hread; [|done].
  intros [= <- <- <-].
  exists skipped, path, lines, w1, (env_world e1). rewrite Hread.
  split; [done|]. split; [done|]. split; [done|]. split; done.
Qed.

(** The addresses collected from the lines of a file. *)
Lemma collect_addresses_valid lines :
  let hosts := collect_addresses ip_address lines [] in
  NoDup hosts /\
  (forall h, h ∈ hosts <-> ip_address h = true /\ h ∈ py_strip <$> lines).
Proof.
  destruct (collect_addresses_spec lines [] (NoDup_nil_2 (A := string)))
    as (Hnd & Hmem & _).
  cbv zeta in *. split; [done|].
  intros h. rewrite Hmem. split; [|tauto]. by intros [?%elem_of_nil|].
Qed.

(** X9: the list [check_file] returns has no repetition and holds the
    lines of the file, stripped by [str.strip], that
    [ipaddress.ip_address] accepts, each once, in the order of their
    first occurrence; the file is the one at the first typed path that
    could be opened, read in the second opening. *)
Theorem check_file_returns_distinct_valid_addresses stdin (e : env sys) hosts
    rest e' :
  check_file sys open_file read_file ip_address stdin e
  = Returns (hosts, rest) e' ->
  NoDup hosts /\
  Forall (fun h => ip_address h = true) hosts /\
  exists skipped path lines w1 w2,
    stdin = skipped ++ path :: rest /\
    Forall (fun p => exists w', is_Ok (open_file p w').1 = false) skipped /\
    is_Ok (open_file path w1).1 = true /\
    (read_file path w2).1 = Ok lines /\
    hosts = collect_addresses ip_address lines [] /\
    (forall h, h ∈ hosts <-> ip_address h = true /\ h ∈ py_strip <$> lines) /\
    hosts `sublist_of` py_strip <$> lines.
Proof.
  intros (skipped & path & lines & w1 & w2 & Hstdin & Hsk & Hopen & Hread & ->)
    %check_file_returns_inv.
  destruct (collect_addresses_valid lines) as [Hnd Hmem]. cbv zeta in Hnd, Hmem.
  destruct (collect_addresses_spec lines [] (NoDup_nil_2 (A := string)))
    as (_ & _ & added & Hr & Hsub).
  cbv zeta in Hr. simpl in Hr.
  split; [done|]. split.
  { apply Forall_forall. intros h Hh. by apply Hmem in Hh as [? _]. }
  exists skipped, path, lines, w1, w2.
  split; [done|]. split; [done|]. split; [done|]. split; [done|].
  split; [done|]. split; [done|]. by rewrite Hr.
Qed.

(** X14: what stops [check_file].  It raises in two ways only: with the
    [EOFError] of the question for the path, which stands outside the
    [try], when the input ends after every path typed failed to open
    (each failure of [open], of whatever class, is answered by a
    message and the question again); and with the exception of the
    second opening or of the reading of the file that the first
    opening found, which no handler catches.  It never loops for ever,
    and when no path typed can be opened it ends with that
    [EOFError]. *)
Theorem check_file_stops_by_end_of_input_or_unreadable_file stdin (e : env sys) :
  let o := check_file sys open_file read_file ip_address stdin e in
  (forall x e',
     o = Raises x e' ->
     (x = EOF_error /\
      Forall (fun p => exists w', is_Ok (open_file p w').1 = false) stdin /\
      last (env_trace e')
      = Some (EvPrint "Enter the path to the file containing IP addresses: ")) \/
     (exists skipped path rest w1 w2,
        stdin = skipped ++ path :: rest /\
        Forall (fun p => exists w', is_Ok (open_file p w').1 = false) skipped /\
        is_Ok (open_file path w1).1 = true /\
        read_file path w2 = (Exc x, env_world e'))) /\
  (forall e', o <> Hangs e') /\
  (Forall (fun p => forall w', is_Ok (open_file p w').1 = false) stdin ->
   exists e', o = Raises EOF_error e').
Proof.
  cbv zeta. unfold check_file, mbind, M_bind.
  pose proof (check_file_prompt_stops stdin e) as Hstops.
  destruct (check_file_prompt sys open_file stdin e)
    as [[path stdin1] e1|x1 e1|e1] eqn:Hprompt; [| |done].
  - apply check_file_prompt_returns in Hprompt as (skipped & w1 & -> & Hok & Hsk).
    unfold fs_call.
    destruct (read_file path (env_world e1)) as [[lines|x2] w2] eqn:Hread.
    + split; [done|]. split; [done|]. intros Hall.
      apply Forall_app in Hall as [_ Hall].
      apply list.Forall_cons in Hall as [Hpath _].
      by rewrite Hpath in Hok.
    + split; [|split; [done|] ].
      * intros x e' [= <- <-]. right.
        exists skipped, path, stdin1, w1, (env_world e1).
        split; [done|]. split; [done|]. split; [done|]. by rewrite Hread.
      * intros Hall. apply Forall_app in Hall as [_ Hall].
        apply list.Forall_cons in Hall as [Hpath _].
        by rewrite Hpath in Hok.
  - destruct Hstops as (-> & Hall & Hlast). split; [|split; [done|] ].
    + intros x e' [= <- <-]. by left.
    + intros _. by exists e1.
Qed.

(** ** The program *)


(** ** What the prompts leave in the trace *)

Lemma only_prints_ret {A} (a : A) : only_prints (sys := sys) (mret a).
Proof. intros e. exists []. by rewrite app_nil_r. Qed.

Lemma only_prints_raise {A} x : only_prints (raise sys (A := A) x).
Proof. intros e. exists []. by rewrite app_nil_r. Qed.

Lemma only_prints_print msg : only_prints (print sys msg).
Proof. intros e. exists [EvPrint msg]. split; [done|by repeat constructor]. Qed.

Lemma only_prints_bind {A B} (m : M sys A) (k : A -> M sys B) :
  only_prints m -> (forall a, only_prints (k a)) -> only_prints (m ≫= k).
Proof.
  intros Hm Hk e. destruct (Hm e) as (p1 & Ht1 & Hp1).
  unfold mbind, M_bind. destruct (m e) as [a e1|x e1|e1]; simpl in Ht1;
    [|by exists p1..].
  destruct (Hk a e1) as (p2 & Ht2 & Hp2). exists (p1 ++ p2).
  split; [by rewrite Ht2, Ht1, <- app_assoc|by apply Forall_app].
Qed.

Lemma only_prints_fs_call {A} (op : World sys -> result A * World sys) :
  only_prints (fs_call sys op).
Proof.
  intros e. exists []. rewrite app_nil_r. unfold fs_call.
  by destruct (op (env_world e)) as [[a|x] w'].
Qed.

Lemma only_prints_input prompt stdin : only_prints (input sys prompt stdin).
Proof.
  apply only_prints_bind; [apply only_prints_print|]. intros _.
  destruct stdin as [|line rest]; [apply only_prints_raise|apply only_prints_ret].
Qed.

Lemma only_prints_check_file_prompt stdin :
  only_prints (check_file_prompt sys open_file stdin).
Proof.
  induction stdin as [|path rest IH]; [apply only_prints_input|].
  intros e. rewrite check_file_prompt_cons. cbv zeta.
  destruct (open_file path _) as [[[]|x] w']; simpl.
  - eexists [_]. split; [done|by repeat constructor].
  - destruct (IH (log_event
                    (EvPrint (if is_FileNotFoundError (exn_cls x)
                              then "File " ++ path
                                   ++ " was not found! Please try again."
                              else "An error occurred: " ++ exn_msg x))
                    (Build_env w'
                       (env_trace e
                        ++ [EvPrint
                              "Enter the path to the file containing IP addresses: "]))))
      as (p & Ht & Hp).
    eexists (_ :: _ :: p). split.
    + rewrite Ht. simpl. rewrite <- !app_assoc. done.
    + by repeat constructor.
Qed.

Lemma only_prints_check_file stdin :
  only_prints (check_file sys open_file read_file ip_address stdin).
Proof.
  apply only_prints_bind; [apply only_prints_check_file_prompt|].
  intros [path rest]. apply only_prints_bind; [apply only_prints_fs_call|].
  intros lines. apply only_prints_ret.
Qed.

Lemma only_prints_ask_port prompt low stdin :
  only_prints (ask_port sys prompt low stdin).
Proof.
  induction stdin as [|line rest IH].
  { intros e. rewrite ask_port_nil. eexists [_; _]. split.
    - simpl. by rewrite <- app_assoc.
    - by repeat constructor. }
  intros e. rewrite ask_port_cons. destruct (accepted_port low line).
  - eexists [_]. split; [done|by repeat constructor].
  - destruct (IH (log_event
                    (EvPrint ("Entry is invalid! Please enter a number from "
                              ++ pretty low ++ " to 65000."))
                    (log_event (EvPrint prompt) e))) as (p & Ht & Hp).
    eexists (_ :: _ :: p). split.
    + rewrite Ht. simpl. rewrite <- !app_assoc. done.
    + by repeat constructor.
Qed.

Lemma only_prints_TCP_port_check stdin : only_prints (TCP_port_check sys stdin).
Proof.
  apply only_prints_bind; [apply only_prints_ask_port|].
  intros [start_port stdin1].
  apply only_prints_bind; [apply only_prints_ask_port|].
  intros [end_port stdin2]. apply only_prints_ret.
Qed.

Lemma only_prints_get_threads_count_io stdin :
  only_prints (get_threads_count_io sys stdin).
Proof.
  induction stdin as [|line rest IH].
  { intros e. rewrite get_threads_count_io_nil. eexists [_; _]. split.
    - simpl. by rewrite <- app_assoc.
    - by repeat constructor. }
  intros e. rewrite get_threads_count_io_cons. cbv zeta.
  destruct (accepted_threads line).
  - eexists [_]. split; [done|by repeat constructor].
  - destruct (IH (log_event
                    (EvPrint ("Invalid entry! Please enter a valid number "
                              ++ "or press Enter to use the default."))
                    (log_event
                       (EvPrint
                          "Enter the number of threads to use (default 100): ")
                       e))) as (p & Ht & Hp).
    eexists (_ :: _ :: p). split.
    + rewrite Ht. simpl. rewrite <- !app_assoc. done.
    + by repeat constructor.
Qed.

(** ** The lines the prompts read *)

Lemma get_threads_count_io_reads stdin (e : env sys) n rest e' :
  get_threads_count_io sys stdin e = Returns (n, rest) e' ->
  length rest < length stdin.
Proof.
  intros Hrun.
  assert (exists e', get_threads_count_io sys stdin e = Returns (n, rest) e')
    as (skipped & line & -> & _)%get_threads_count_io_returns by eauto.
  rewrite length_app. simpl. lia.
Qed.

Lemma TCP_port_check_reads stdin (e : env sys) start_port end_port rest e' :
  TCP_port_check sys stdin e = Returns (start_port, end_port, rest) e' ->
  length rest + 2 <= length stdin.
Proof.
  unfold TCP_port_check, mbind, M_bind.
  destruct (ask_port sys "Enter the start TCP port: " 1 stdin e)
    as [[s stdin1] e1|x e1|e1] eqn:H1; [|done..].
  destruct (ask_port sys "Enter the end TCP port: " s stdin1 e1)
    as [[e2 stdin2] e2'|x e2'|e2'] eqn:H2; [|done..].
  intros [= <- <- <- <-].
  assert (exists e', ask_port sys "Enter the start TCP port: " 1 stdin e
                     = Returns (s, stdin1) e') as Ha by eauto.
  assert (exists e', ask_port sys "Enter the end TCP port: " s stdin1 e1
                     = Returns (e2, stdin2) e') as Hb by eauto.
  apply ask_port_returns in Ha as (sk1 & l1 & -> & _).
  apply ask_port_returns in Hb as (sk2 & l2 & -> & _).
  rewrite !length_app. simpl. rewrite length_app. simpl. lia.
Qed.

(** ** The program, whatever its outcome *)

(** X15: the program asks before it scans.  Whatever the outcome, what
    it does begins with lines on the screen only; anything else, from
    the first ping to the writing of the report, comes after the four
    questions were answered (so never with fewer than four lines
    typed), and stays within the answers: the hosts are distinct
    accepted addresses and the ports lie in a range with
    [1 <= start_port <= end_port <= 65000]. *)
Theorem main_block_asks_before_it_scans stdin (e : env sys) :
  exists prints evs,
    env_trace (outcome_env
                 (main_block sys open_file read_file ip_address stdin e))
    = env_trace e ++ prints ++ evs /\
    Forall (fun ev => is_print ev = true) prints /\
    (length stdin < 4 -> evs = []) /\
    (evs = [] \/
     exists hosts start_port end_port num_threads output_filename,
       NoDup hosts /\
       Forall (fun h => ip_address h = true) hosts /\
       (1 <= start_port <= end_port)%Z /\ (end_port <= 65000)%Z /\
       Forall (event_within hosts start_port end_port num_threads
                 output_filename) evs).
Proof.
  unfold main_block, mbind, M_bind.
  destruct (only_prints_check_file stdin e) as (p1 & Ht1 & Hp1).
  destruct (check_file sys open_file read_file ip_address stdin e)
    as [[hosts stdin1] e1|x e1|e1] eqn:Hcf; simpl in Ht1;
    [|exists p1, []; rewrite app_nil_r; split; [done|];
      split; [done|]; split; [done|by left]..].
  destruct (only_prints_TCP_port_check stdin1 e1) as (p2 & Ht2 & Hp2).
  destruct (TCP_port_check sys stdin1 e1)
    as [[[start_port end_port] stdin2] e2|x e2|e2] eqn:Htcp; simpl in Ht2;
    [|exists (p1 ++ p2), []; simpl; rewrite app_nil_r, Ht2, Ht1, <- app_assoc;
      split; [done|]; split; [by apply Forall_app|];
      split; [done|by left]..].
  destruct (only_prints_get_threads_count_io stdin2 e2) as (p3 & Ht3 & Hp3).
  destruct (get_threads_count_io sys stdin2 e2)
    as [[num_threads stdin3] e3|x e3|e3] eqn:Hth; simpl in Ht3;
    [|exists (p1 ++ p2 ++ p3), [];
      simpl; rewrite app_nil_r, Ht3, Ht2, Ht1, <- !app_assoc;
      split; [done|]; split; [by repeat apply Forall_app_2|];
      split; [done|by left]..].
  destruct (only_prints_input "Enter the output filename (JSON format): "
              stdin3 e3) as (p4 & Ht4 & Hp4).
  destruct (input sys "Enter the output filename (JSON format): " stdin3 e3)
    as [[output_filename stdin4] e4|x e4|e4] eqn:Hin; simpl in Ht4;
    [|exists (p1 ++ p2 ++ p3 ++ p4), [];
      simpl; rewrite app_nil_r, Ht4, Ht3, Ht2, Ht1, <- !app_assoc;
      split; [done|]; split; [by repeat apply Forall_app_2|];
      split; [done|by left]..].
  destruct (scan_from_file_outcome_trace hosts start_port end_port num_threads
              output_filename e4) as (evs0 & written & Htr & Hin0 & Hwritten).
  assert (Forall (event_within hosts start_port end_port num_threads
                    output_filename) (evs0 ++ written)) as Hin_evs.
  { apply Forall_app. split; [done|].
    destruct Hwritten as [-> | (rep & r & [-> | [msg ->] ]) ];
      by repeat constructor. }
  exists (p1 ++ p2 ++ p3 ++ p4), (evs0 ++ written).
  split; [by rewrite Htr, Ht4, Ht3, Ht2, Ht1, <- !app_assoc|].
  split; [by repeat apply Forall_app_2|].
  assert (exists e', TCP_port_check sys stdin1 e1
                     = Returns (start_port, end_port, stdin2) e') as Hr by eauto.
  apply TCP_port_check_range in Hr as (Hs & He).
  apply TCP_port_check_reads in Htcp.
  apply get_threads_count_io_reads in Hth.
  apply check_file_returns_inv in Hcf
    as (skipped & path & lines & w1 & w2 & -> & _ & _ & _ & Hc).
  destruct (collect_addresses_valid lines) as [Hnd Hmem].
  cbv zeta in Hnd, Hmem. rewrite <- Hc in Hnd, Hmem.
  assert (Forall (fun h => ip_address h = true) hosts) as Hip.
  { apply Forall_forall. intros h Hh. by apply Hmem in Hh as [? _]. }
  split.
  - intros Hlen. rewrite length_app in Hlen. simpl in Hlen.
    destruct stdin3 as [|line stdin3']; [done|]. simpl in Hth. lia.
  - right. exists hosts, start_port, end_port, num_threads, output_filename.
    split; [done|]. split; [done|]. split; [done|]. split; [done|done].
Qed.

End InteractiveResults.

(** ** Runs of the further results *)

Lemma pool_never_exceeds_num_threads_witness :
  let r := port_scanner_run demo_sys "10.0.0.1" 20 23 2 0 in
  length (threads (final_state r)) <= 2 /\
  probes_in_flight (final_state r) <= 2.
Proof.
  destruct (pool_never_exceeds_num_threads (sys := demo_sys)
              "10.0.0.1" 20 23 2 0
              (final_state (port_scanner_run demo_sys "10.0.0.1" 20 23 2 0)))
    as (Hlen & Hfly & _).
  - apply run_reachable.
  - split; [exact Hlen|exact Hfly].
Defined.

Lemma port_scanner_returns_after_all_work_witness :
  exists open_ports st,
    port_scanner_run demo_sys "10.0.0.1" 20 23 2 0 = Returned open_ports st /\
    port_queue st = [] /\
    length (threads st) = 2 /\
    probes_in_flight st = 0.
Proof.
  eassert (port_scanner_run demo_sys "10.0.0.1" 20 23 2 0 = Returned _ _)
    as Hrun by (vm_compute; reflexivity).
  destruct (port_scanner_returns_after_all_work _ _ _ _ _ _ _ Hrun)
    as (Hq & _ & _ & Hlen & _ & Hfly).
  eexists _, _. split; [exact Hrun|].
  split; [exact Hq|]. split; [exact Hlen|exact Hfly].
Defined.

Lemma port_scanner_blocks_when_a_probe_raises_witness :
  exists st,
    port_scanner_run unresolved_sys "nowhere.invalid" 80 81 2 0 = Blocked st.
Proof.
  destruct (port_scanner_blocks_when_a_probe_raises (sys := unresolved_sys)
              "nowhere.invalid" 80 81 2 0) as [_ Hblocked].
  apply (Hblocked 80%Z
           (Exn SocketGaierror "[Errno -2] Name or service not known")).
  vm_compute. apply list_elem_of_In. simpl. tauto.
Defined.

Lemma port_scanner_result_on_static_network_witness :
  exists open_ports st,
    port_scanner_run demo_sys "10.0.0.1" 20 23 2 0 = Returned open_ports st /\
    open_ports
    ≡ₚ filter (fun p => answers_zero
                          (Ok (if (p =? 22)%Z || (p =? 80)%Z then 0 else 111)%Z)
                        = true)
         (py_range 20 23).
Proof.
  eassert (port_scanner_run demo_sys "10.0.0.1" 20 23 2 0 = Returned _ _)
    as Hrun by (vm_compute; reflexivity).
  destruct (port_scanner_result_on_static_network (sys := demo_sys)
              "10.0.0.1" 20 23 2 0
              (fun p => Ok (if (p =? 22)%Z || (p =? 80)%Z then 0 else 111)%Z)
              _ _ (fun port w => eq_refl) Hrun) as [Hports _].
  eexists _, _. split; [exact Hrun|exact Hports].
Defined.

Lemma port_scanner_one_worker_keeps_order_witness :
  exists open_ports st,
    port_scanner_run demo_sys "10.0.0.1" 20 23 1 0 = Returned open_ports st /\
    probed st = py_range 20 23 /\
    open_ports `sublist_of` py_range 20 23.
Proof.
  eassert (port_scanner_run demo_sys "10.0.0.1" 20 23 1 0 = Returned _ _)
    as Hrun by (vm_compute; reflexivity).
  destruct (port_scanner_one_worker_keeps_order (sys := demo_sys)
              "10.0.0.1" 20 23 1 0 _ _ ltac:(lia) Hrun)
    as (Hprobed & _ & Hsub & _).
  eexists _, _. split; [exact Hrun|]. split; [exact Hprobed|exact Hsub].
Defined.


Lemma scan_from_file_without_workers_witness :
  exists e' evs rep r,
    scan_from_file demo_sys ["10.0.0.2"] 79 81 0 "out.json" demo_env
    = Returns () e' /\
    env_trace e' = env_trace demo_env ++ evs /\
    Forall (fun ev => ping_failed ev = true /\ is_scan_event ev = false) evs /\
    EvDump "out.json" rep r ∈ evs.
Proof.
  eassert (scan_from_file demo_sys ["10.0.0.2"] 79 81 0 "out.json" demo_env
           = Returns () _) as Hrun by (vm_compute; reflexivity).
  destruct (scan_from_file_without_workers (sys := demo_sys)
              ["10.0.0.2"] 79 81 0 "out.json" demo_env _
              ltac:(lia) ltac:(lia) Hrun)
    as (evs & rep & r & Htrace & Hall & Hdump & _).
  eexists _, evs, rep, r. split; [exact Hrun|].
  split; [exact Htrace|]. split; [exact Hall|exact Hdump].
Defined.

Lemma TCP_port_check_returns_valid_range_witness :
  (exists e',
     TCP_port_check demo_sys ["0"; "80"; "79"; "x"; "90"; "out.json"] demo_env
     = Returns (80, 90, ["out.json"])%Z e') /\
  py_range 80 90 <> [].
Proof.
  destruct (TCP_port_check_returns_valid_range (sys := demo_sys)
              ["0"; "80"; "79"; "x"; "90"; "out.json"] demo_env 80 90
              ["out.json"]) as ([_ Hreturns] & Hrange & _).
  assert (exists e',
            TCP_port_check demo_sys ["0"; "80"; "79"; "x"; "90"; "out.json"]
              demo_env
            = Returns (80, 90, ["out.json"])%Z e') as Hrun.
  { apply Hreturns. exists ["0"], "80", ["79"; "x"], "90".
    split; [reflexivity|]. split; [repeat constructor|].
    split; [vm_compute; reflexivity|].
    split; [repeat constructor|vm_compute; reflexivity]. }
  split; [exact Hrun|]. exact (proj2 (proj2 (Hrange Hrun))).
Defined.

Lemma check_file_returns_distinct_valid_addresses_witness :
  exists hosts e',
    check_file demo_sys demo_open_file demo_read_file demo_ip_address
      ["nofile"; "secret.txt"; "hosts.txt"; "79"] demo_env
    = Returns (hosts, ["79"]) e' /\
    NoDup hosts /\
    Forall (fun h => demo_ip_address h = true) hosts.
Proof.
  eassert (check_file demo_sys demo_open_file demo_read_file demo_ip_address
             ["nofile"; "secret.txt"; "hosts.txt"; "79"] demo_env
           = Returns (_, ["79"]) _) as Hrun by (vm_compute; reflexivity).
  destruct (check_file_returns_distinct_valid_addresses _ _ _ _ _ _ _ _ Hrun)
    as (Hnodup & Hvalid & _).
  eexists _, _. split; [exact Hrun|]. split; [exact Hnodup|exact Hvalid].
Defined.

Lemma get_threads_count_first_accepted_witness :
  get_threads_count ["abc"; "1.5"; " -5 "; "7"] = Some (-5)%Z.
Proof.
  apply (proj1 (get_threads_count_first_accepted (sys := demo_sys)
                  ["abc"; "1.5"; " -5 "; "7"] (-5)%Z)).
  exists ["abc"; "1.5"], " -5 ", ["7"].
  split; [reflexivity|].
  split; [repeat constructor; vm_compute; reflexivity|vm_compute; reflexivity].
Defined.


Lemma check_file_stops_by_end_of_input_or_unreadable_file_witness :
  exists x e' path w1 w2,
    check_file demo_sys demo_open_file demo_read_file demo_ip_address
      ["nofile"; "binary.dat"; "79"] demo_env
    = Raises x e' /\
    exn_cls x = UnicodeError /\
    is_Ok (demo_open_file path w1).1 = true /\
    demo_read_file path w2 = (Exc x, env_world e').
Proof.
  eassert (check_file demo_sys demo_open_file demo_read_file demo_ip_address
             ["nofile"; "binary.dat"; "79"] demo_env
           = Raises (Exn UnicodeError _) _) as Hrun by (vm_compute; reflexivity).
  destruct (check_file_stops_by_end_of_input_or_unreadable_file
              (sys := demo_sys) demo_open_file demo_read_file demo_ip_address
              ["nofile"; "binary.dat"; "79"] demo_env)
    as (Hraises & _ & _).
  destruct (Hraises _ _ Hrun)
    as [ [Heof _] | (skipped & path & rest & w1 & w2 & _ & _ & Hopen & Hread) ].
  - discriminate Heof.
  - eexists _, _, path, w1, w2. split; [exact Hrun|].
    split; [reflexivity|]. split; [exact Hopen|exact Hread].
Defined.
